(** * CloudStorm: the gateway connector ([src/connector/DiscordConnector.ts])

    A shallow embedding of the [DiscordConnector] class: its fields, the
    module-level [reconnecting] flag, and every method, written as state
    transformers that also record the calls made on the collaborators
    (the [BetterWs] transport, the client emitter, the connector's own
    emitter and the interval timers of the runtime). *)

From Stdlib Require Import ZArith String List Bool Lia.
From stdpp Require Import base list strings.
Import ListNotations.

Local Open Scope string_scope.
Local Open Scope list_scope.
Local Open Scope Z_scope.

(** ** JavaScript truthiness of the values the connector tests *)

Module JS.

(** [if (n)] on a number: zero is falsy. *)
Definition truthyNum (n : Z) : bool := negb (n =? 0).

(** [if (s)] on a string: the empty string is falsy. *)
Definition truthyStr (s : string) : bool :=
  match s with EmptyString => false | String _ _ => true end.

(** A possibly missing ([undefined] / [null]) value is falsy when missing. *)
Definition truthyOpt {A : Type} (f : A -> bool) (o : option A) : bool :=
  match o with Some a => f a | None => false end.

(** [a || b]. *)
Definition orElse {A : Type} (f : A -> bool) (o : option A) (dflt : A) : A :=
  match o with
  | Some a => if f a then a else dflt
  | None => dflt
  end.

End JS.

(** ** Opcodes *)

(** Modelled from the spec: [GATEWAY_OP_CODES] of [../Constants], which is
    not part of the sources at hand; the numbers are those of the wire
    envelope contract. *)
Module OP.
Definition DISPATCH : Z := 0.
Definition HEARTBEAT : Z := 1.
Definition IDENTIFY : Z := 2.
Definition PRESENCE_UPDATE : Z := 3.
Definition VOICE_STATE_UPDATE : Z := 4.
Definition RESUME : Z := 6.
Definition RECONNECT : Z := 7.
Definition REQUEST_GUILD_MEMBERS : Z := 8.
Definition INVALID_SESSION : Z := 9.
Definition HELLO : Z := 10.
Definition HEARTBEAT_ACK : Z := 11.
End OP.

(** ** Data model *)

Inductive Status := connecting | identifying | resuming | ready | disconnected.

(** The payload [d] of an inbound message is opaque ([any]); the connector
    only tests its truthiness and reads three of its properties.  [DataView]
    is a non-nullish payload seen through exactly these accesses, with
    [heartbeat_interval] a number as the field it is stored in declares. *)
Record DataView := {
  d_truthy : bool;
  heartbeat_interval : Z;
  d_trace : option string;
  session_id : option string
}.

(** [IGatewayMessage]; [d = None] is a [null] or [undefined] payload, on
    which a property read throws. *)
Record Message := {
  op : Z;
  d : option DataView;
  s : option Z;
  t : option string
}.

(** A presence activity object; a missing property is [None]. *)
Record Activity := {
  name : option string;
  type : option Z;
  url : option string
}.

(** Presence data as passed in: [activities] is [None] when the property is
    missing or not an array, otherwise the array of object references. *)
Record Presence := {
  p_status : option string;
  activities : option (list nat);
  afk : option bool;
  since : option Z
}.

(** Presence as serialised on the wire: the referenced activity objects at
    the moment of the send ([None] for an entry that is not an object). *)
Record PresenceOut := {
  o_status : option string;
  o_activities : list (option Activity);
  o_afk : option bool;
  o_since : option Z
}.

Record VoiceState := {
  channel_id : option string;
  self_mute : option bool;
  self_deaf : option bool
}.

Record MembersRequest := {
  query : option string;
  limit : option Z
}.

Record Options := {
  opt_reconnect : bool;
  token : string;
  largeGuildThreshold : option Z;
  totalShards : option Z;
  intents : option Z;
  initialPresence : option Presence
}.

(** Messages handed to [betterWs.sendMessage]. *)
Inductive Outgoing :=
| OutHeartbeat (seq : Z)
| OutResume (seq : Z) (tok : string) (session : option string)
| OutIdentify (tok : string) (large_threshold : option Z) (shard : Z * Z)
              (intent_bits : Z) (presence : option PresenceOut)
| OutPresenceUpdate (p : PresenceOut)
| OutVoiceStateUpdate (v : VoiceState)
| OutRequestGuildMembers (r : MembersRequest).

(** Texts of the [debug] notifications, by the place that emits them. *)
Inductive DebugText :=
| DbgConnecting (shard : Z)
| DbgInvalidSequence (shard : Z) (current : Z) (received : Z)
| DbgAskedToReconnect (shard : Z)
| DbgHello (shard : Z)
| DbgNoAck (shard : Z) (ms : Z)
| DbgIdentifyNotOpen
| DbgResumeNotOpen
| DbgHeartbeatNotOpen
| DbgIdentifying (shard : Z)
| DbgResuming (shard : Z).

(** What the connector does to the world outside itself, in program order. *)
Inductive Effect :=
| ClientDebug (txt : DebugText)
| ClientError (txt : string)
| ClientRawReceive (m : Message)
| EmitQueueIdentify (shard : Z)
| EmitEvent (m : Message)
| EmitReady (resumed : bool)
| EmitDisconnect (code : Z) (reason : string) (graceful : bool)
| EmitStateChange (st : Status)
| WsConnect
| WsClose (code : Z) (reason : string)
| WsSend (m : Outgoing)
| SetInterval (handle : nat) (ms : Z)
| ClearInterval (handle : nat).

(** The fields of a [DiscordConnector] instance, then the state it shares
    with its surroundings: the module-level [reconnecting] flag, the
    interval timers of the runtime that are still scheduled, the
    [_reconnect] calls suspended at their [await], and the activity
    objects that presence data refers to. *)
Record Connector := {
  id : Z;
  options : Options;
  heartbeatTimeout : option nat;
  heartbeatInterval : Z;
  _trace : option string;
  seq : Z;
  status : Status;
  sessionId : option string;
  lastACKAt : Z;
  lastHeartbeatSend : Z;
  latency : Z;
  _closing : bool;
  reconnecting : bool;
  timers : list nat;
  nextTimer : nat;
  suspended : list bool;
  heap : list Activity
}.

(** What a handler reads from its surroundings while it runs: the clock
    ([Date.now()]) and [betterWs.status]. *)
Record Env := { now : Z; wsStatus : Z }.

(** ** Field assignment *)

(** [set_f v c] is [c] after the assignment [f = v]. *)

Definition set_options (v : Options) (c : Connector) : Connector :=
  {| id := id c; options := v; heartbeatTimeout := heartbeatTimeout c;
     heartbeatInterval := heartbeatInterval c; _trace := _trace c;
     seq := seq c; status := status c; sessionId := sessionId c;
     lastACKAt := lastACKAt c; lastHeartbeatSend := lastHeartbeatSend c;
     latency := latency c; _closing := _closing c;
     reconnecting := reconnecting c; timers := timers c;
     nextTimer := nextTimer c; suspended := suspended c; heap := heap c |}.

Definition set_heartbeatTimeout (v : option nat) (c : Connector) : Connector :=
  {| id := id c; options := options c; heartbeatTimeout := v;
     heartbeatInterval := heartbeatInterval c; _trace := _trace c;
     seq := seq c; status := status c; sessionId := sessionId c;
     lastACKAt := lastACKAt c; lastHeartbeatSend := lastHeartbeatSend c;
     latency := latency c; _closing := _closing c;
     reconnecting := reconnecting c; timers := timers c;
     nextTimer := nextTimer c; suspended := suspended c; heap := heap c |}.

Definition set_heartbeatInterval (v : Z) (c : Connector) : Connector :=
  {| id := id c; options := options c;
     heartbeatTimeout := heartbeatTimeout c; heartbeatInterval := v;
     _trace := _trace c; seq := seq c; status := status c;
     sessionId := sessionId c; lastACKAt := lastACKAt c;
     lastHeartbeatSend := lastHeartbeatSend c; latency := latency c;
     _closing := _closing c; reconnecting := reconnecting c;
     timers := timers c; nextTimer := nextTimer c; suspended := suspended c;
     heap := heap c |}.

Definition set__trace (v : option string) (c : Connector) : Connector :=
  {| id := id c; options := options c;
     heartbeatTimeout := heartbeatTimeout c;
     heartbeatInterval := heartbeatInterval c; _trace := v; seq := seq c;
     status := status c; sessionId := sessionId c; lastACKAt := lastACKAt c;
     lastHeartbeatSend := lastHeartbeatSend c; latency := latency c;
     _closing := _closing c; reconnecting := reconnecting c;
     timers := timers c; nextTimer := nextTimer c; suspended := suspended c;
     heap := heap c |}.

Definition set_seq (v : Z) (c : Connector) : Connector :=
  {| id := id c; options := options c;
     heartbeatTimeout := heartbeatTimeout c;
     heartbeatInterval := heartbeatInterval c; _trace := _trace c; seq := v;
     status := status c; sessionId := sessionId c; lastACKAt := lastACKAt c;
     lastHeartbeatSend := lastHeartbeatSend c; latency := latency c;
     _closing := _closing c; reconnecting := reconnecting c;
     timers := timers c; nextTimer := nextTimer c; suspended := suspended c;
     heap := heap c |}.

Definition set_status (v : Status) (c : Connector) : Connector :=
  {| id := id c; options := options c;
     heartbeatTimeout := heartbeatTimeout c;
     heartbeatInterval := heartbeatInterval c; _trace := _trace c;
     seq := seq c; status := v; sessionId := sessionId c;
     lastACKAt := lastACKAt c; lastHeartbeatSend := lastHeartbeatSend c;
     latency := latency c; _closing := _closing c;
     reconnecting := reconnecting c; timers := timers c;
     nextTimer := nextTimer c; suspended := suspended c; heap := heap c |}.

Definition set_sessionId (v : option string) (c : Connector) : Connector :=
  {| id := id c; options := options c;
     heartbeatTimeout := heartbeatTimeout c;
     heartbeatInterval := heartbeatInterval c; _trace := _trace c;
     seq := seq c; status := status c; sessionId := v;
     lastACKAt := lastACKAt c; lastHeartbeatSend := lastHeartbeatSend c;
     latency := latency c; _closing := _closing c;
     reconnecting := reconnecting c; timers := timers c;
     nextTimer := nextTimer c; suspended := suspended c; heap := heap c |}.

Definition set_lastACKAt (v : Z) (c : Connector) : Connector :=
  {| id := id c; options := options c;
     heartbeatTimeout := heartbeatTimeout c;
     heartbeatInterval := heartbeatInterval c; _trace := _trace c;
     seq := seq c; status := status c; sessionId := sessionId c;
     lastACKAt := v; lastHeartbeatSend := lastHeartbeatSend c;
     latency := latency c; _closing := _closing c;
     reconnecting := reconnecting c; timers := timers c;
     nextTimer := nextTimer c; suspended := suspended c; heap := heap c |}.

Definition set_lastHeartbeatSend (v : Z) (c : Connector) : Connector :=
  {| id := id c; options := options c;
     heartbeatTimeout := heartbeatTimeout c;
     heartbeatInterval := heartbeatInterval c; _trace := _trace c;
     seq := seq c; status := status c; sessionId := sessionId c;
     lastACKAt := lastACKAt c; lastHeartbeatSend := v; latency := latency c;
     _closing := _closing c; reconnecting := reconnecting c;
     timers := timers c; nextTimer := nextTimer c; suspended := suspended c;
     heap := heap c |}.

Definition set_latency (v : Z) (c : Connector) : Connector :=
  {| id := id c; options := options c;
     heartbeatTimeout := heartbeatTimeout c;
     heartbeatInterval := heartbeatInterval c; _trace := _trace c;
     seq := seq c; status := status c; sessionId := sessionId c;
     lastACKAt := lastACKAt c; lastHeartbeatSend := lastHeartbeatSend c;
     latency := v; _closing := _closing c; reconnecting := reconnecting c;
     timers := timers c; nextTimer := nextTimer c; suspended := suspended c;
     heap := heap c |}.

Definition set__closing (v : bool) (c : Connector) : Connector :=
  {| id := id c; options := options c;
     heartbeatTimeout := heartbeatTimeout c;
     heartbeatInterval := heartbeatInterval c; _trace := _trace c;
     seq := seq c; status := status c; sessionId := sessionId c;
     lastACKAt := lastACKAt c; lastHeartbeatSend := lastHeartbeatSend c;
     latency := latency c; _closing := v; reconnecting := reconnecting c;
     timers := timers c; nextTimer := nextTimer c; suspended := suspended c;
     heap := heap c |}.

Definition set_reconnecting (v : bool) (c : Connector) : Connector :=
  {| id := id c; options := options c;
     heartbeatTimeout := heartbeatTimeout c;
     heartbeatInterval := heartbeatInterval c; _trace := _trace c;
     seq := seq c; status := status c; sessionId := sessionId c;
     lastACKAt := lastACKAt c; lastHeartbeatSend := lastHeartbeatSend c;
     latency := latency c; _closing := _closing c; reconnecting := v;
     timers := timers c; nextTimer := nextTimer c; suspended := suspended c;
     heap := heap c |}.

Definition set_timers (v : list nat) (c : Connector) : Connector :=
  {| id := id c; options := options c;
     heartbeatTimeout := heartbeatTimeout c;
     heartbeatInterval := heartbeatInterval c; _trace := _trace c;
     seq := seq c; status := status c; sessionId := sessionId c;
     lastACKAt := lastACKAt c; lastHeartbeatSend := lastHeartbeatSend c;
     latency := latency c; _closing := _closing c;
     reconnecting := reconnecting c; timers := v; nextTimer := nextTimer c;
     suspended := suspended c; heap := heap c |}.

Definition set_nextTimer (v : nat) (c : Connector) : Connector :=
  {| id := id c; options := options c;
     heartbeatTimeout := heartbeatTimeout c;
     heartbeatInterval := heartbeatInterval c; _trace := _trace c;
     seq := seq c; status := status c; sessionId := sessionId c;
     lastACKAt := lastACKAt c; lastHeartbeatSend := lastHeartbeatSend c;
     latency := latency c; _closing := _closing c;
     reconnecting := reconnecting c; timers := timers c; nextTimer := v;
     suspended := suspended c; heap := heap c |}.

Definition set_suspended (v : list bool) (c : Connector) : Connector :=
  {| id := id c; options := options c;
     heartbeatTimeout := heartbeatTimeout c;
     heartbeatInterval := heartbeatInterval c; _trace := _trace c;
     seq := seq c; status := status c; sessionId := sessionId c;
     lastACKAt := lastACKAt c; lastHeartbeatSend := lastHeartbeatSend c;
     latency := latency c; _closing := _closing c;
     reconnecting := reconnecting c; timers := timers c;
     nextTimer := nextTimer c; suspended := v; heap := heap c |}.

Definition set_heap (v : list Activity) (c : Connector) : Connector :=
  {| id := id c; options := options c;
     heartbeatTimeout := heartbeatTimeout c;
     heartbeatInterval := heartbeatInterval c; _trace := _trace c;
     seq := seq c; status := status c; sessionId := sessionId c;
     lastACKAt := lastACKAt c; lastHeartbeatSend := lastHeartbeatSend c;
     latency := latency c; _closing := _closing c;
     reconnecting := reconnecting c; timers := timers c;
     nextTimer := nextTimer c; suspended := suspended c; heap := v |}.

Definition set_initialPresence (v : option Presence) (o : Options) : Options :=
  {| opt_reconnect := opt_reconnect o; token := token o;
     largeGuildThreshold := largeGuildThreshold o;
     totalShards := totalShards o; intents := intents o;
     initialPresence := v |}.

Definition set_type (v : option Z) (a : Activity) : Activity :=
  {| name := name a; type := v; url := url a |}.

(** ** Actions: state, recorded effects, exceptions *)

(** The outcome of running a piece of the connector: [val = None] when it
    threw; the state reached and the effects performed up to that point are
    kept either way. *)
Record Res (A : Type) := mkRes {
  val : option A;
  st : Connector;
  log : list Effect
}.
Arguments mkRes {A} _ _ _.
Arguments val {A} _.
Arguments st {A} _.
Arguments log {A} _.

Definition Act (A : Type) : Type := Connector -> Res A.

Definition ret {A : Type} (a : A) : Act A := fun c => mkRes (Some a) c [].

Definition throw {A : Type} : Act A := fun c => mkRes None c [].

Definition bind {A B : Type} (m : Act A) (k : A -> Act B) : Act B :=
  fun c =>
    let r := m c in
    match val r with
    | Some a => let r' := k a (st r) in mkRes (val r') (st r') (log r ++ log r')
    | None => mkRes None (st r) (log r)
    end.

Definition get : Act Connector := fun c => mkRes (Some c) c [].

Definition modify (f : Connector -> Connector) : Act unit :=
  fun c => mkRes (Some tt) (f c) [].

Definition tell (e : Effect) : Act unit := fun c => mkRes (Some tt) c [e].

Definition when (b : bool) (m : Act unit) : Act unit :=
  if b then m else ret tt.

Declare Scope act_scope.
Delimit Scope act_scope with act.
Notation "x <- m ;; k" := (bind m (fun x => k))
  (at level 100, m at next level, right associativity) : act_scope.
Notation "m ;; k" := (bind m (fun _ => k))
  (at level 100, right associativity) : act_scope.
Local Open Scope act_scope.

(** ** Primitive calls on the collaborators *)

Definition debug (txt : DebugText) : Act unit := tell (ClientDebug txt).

(** [setInterval(callback, ms)]: the runtime schedules a repeating timer and
    hands back a fresh handle.  The callback is always [heartbeatTick]. *)
Definition setInterval (ms : Z) : Act nat :=
  c <- get ;;
  let h := nextTimer c in
  modify (set_timers (h :: timers c)) ;;
  modify (set_nextTimer (S h)) ;;
  tell (SetInterval h ms) ;;
  ret h.

(** [clearInterval(handle)]. *)
Definition clearInterval (h : nat) : Act unit :=
  c <- get ;;
  modify (set_timers (filter (fun x => x <> h) (timers c))) ;;
  tell (ClearInterval h).

(** Reading a property of [message.d] throws when the payload is nullish. *)
Definition readD (m : Message) : Act DataView :=
  match d m with
  | Some v => ret v
  | None => throw
  end.

(** ** Presence normalisation: [_checkPresenceData] *)

(** [array.indexOf(x)] on references: the first position holding [x]. *)
Fixpoint indexOf (arr : list nat) (r : nat) : option nat :=
  match arr with
  | [] => None
  | x :: rest => if Nat.eqb x r then Some 0%nat else S <$> indexOf rest r
  end.

(** [array.splice(index, 1)], with [index = -1] ([None]) counting from the
    end of the array as JavaScript does. *)
Definition splice1 (index : option nat) (arr : list nat) : list nat :=
  match index with
  | Some i => delete i arr
  | None => removelast arr
  end.

(** [if (activity.type === undefined) activity.type = activity.url ? 1 : 0]. *)
Definition defaultType (a : Activity) : Activity :=
  match type a with
  | None => set_type (Some (if JS.truthyOpt JS.truthyStr (url a) then 1 else 0)) a
  | Some _ => a
  end.

Inductive LoopOutcome := Completed | Threw | OutOfFuel.

(** The [for (const activity of data.activities)] loop.  The array iterator
    keeps a position [i] and re-reads the array, which the body shrinks, at
    every step.  [h] is the store of activity objects; an entry that is not
    an object makes [activity.type] throw. *)
Fixpoint activitiesLoop (fuel i : nat) (arr : list nat) (h : list Activity)
  : LoopOutcome * list nat * list Activity :=
  match arr !! i with
  | None => (Completed, arr, h)
  | Some activity =>
    match fuel with
    | O => (OutOfFuel, arr, h)
    | S fuel' =>
      let index := indexOf arr activity in
      match h !! activity with
      | None => (Threw, arr, h)
      | Some a =>
        let a' := defaultType a in
        let h' := <[activity := a']> h in
        let arr' :=
          if negb (JS.truthyOpt JS.truthyStr (name a'))
          then splice1 index arr else arr in
        activitiesLoop fuel' (S i) arr' h'
      end
    end
  end.

Section Handlers.

(** The surroundings of one handler run. *)
Variable env : Env.

(** [Intents.resolve] of [../Intents], which is not part of the sources at
    hand. *)
Variable Intents_resolve : Z -> Z.

(** [data] is a reference to a caller's object, which the method mutates
    in place: [place] says where that object is kept, so that each
    assignment to it is seen there even if the loop throws. *)
Definition _checkPresenceData (place : Presence -> Connector -> Connector)
    (data : Presence) : Act Presence :=
  let d1 := {| p_status := Some (JS.orElse JS.truthyStr (p_status data) "online");
               activities := activities data;
               afk := afk data; since := since data |} in
  modify (place d1) ;;
  let arr := match activities d1 with Some a => a | None => [] end in
  let d2 := {| p_status := p_status d1; activities := Some arr;
               afk := afk d1; since := since d1 |} in
  modify (place d2) ;;
  c <- get ;;
  let '(outcome, arr', h') := activitiesLoop (length arr) 0 arr (heap c) in
  let d3 := {| p_status := p_status d2; activities := Some arr';
               afk := afk d2; since := since d2 |} in
  modify (set_heap h') ;;
  modify (place d3) ;;
  match outcome with
  | Completed =>
    let d4 := {| p_status := p_status d3; activities := activities d3;
                 afk := Some (JS.orElse (fun b : bool => b) (afk d3) false);
                 since := since d3 |} in
    let d5 := {| p_status := p_status d4; activities := activities d4;
                 afk := afk d4;
                 since := Some (JS.orElse JS.truthyNum (since d4) (now env)) |} in
    modify (place d5) ;;
    ret d5
  | _ => throw
  end.

(** Where [options.initialPresence] is kept. *)
Definition atInitialPresence (p : Presence) (c : Connector) : Connector :=
  set_options (set_initialPresence (Some p) (options c)) c.

(** An object owned by the caller, which the connector does not keep. *)
Definition atCaller (p : Presence) (c : Connector) : Connector := c.

(** The JSON serialisation of presence data at the time of a send. *)
Definition snapshot (p : Presence) (c : Connector) : PresenceOut :=
  {| o_status := p_status p;
     o_activities :=
       (fun r => heap c !! r) <$> match activities p with Some a => a | None => [] end;
     o_afk := afk p;
     o_since := since p |}.

Definition _checkVoiceStateUpdateData (data : VoiceState) : VoiceState :=
  {| channel_id :=
       match channel_id data with
       | Some ch => if JS.truthyStr ch then Some ch else None
       | None => None
       end;
     self_mute := Some (JS.orElse (fun b : bool => b) (self_mute data) false);
     self_deaf := Some (JS.orElse (fun b : bool => b) (self_deaf data) false) |}.

Definition _checkRequestGuildMembersData (data : MembersRequest) : MembersRequest :=
  {| query := Some (JS.orElse JS.truthyStr (query data) "");
     limit := Some (JS.orElse JS.truthyNum (limit data) 0) |}.

(** ** Connection control *)

Definition connect : Act unit :=
  modify (set__closing false) ;;
  c <- get ;;
  debug (DbgConnecting (id c)) ;;
  tell WsConnect.

Definition disconnect : Act unit :=
  modify (set__closing true) ;;
  tell (WsClose 1000 "Disconnected by User").

Definition clearHeartBeat : Act unit :=
  c <- get ;;
  match heartbeatTimeout c with
  | Some h => clearInterval h
  | None => ret tt
  end ;;
  modify (set_heartbeatTimeout None) ;;
  modify (set_heartbeatInterval 0).

Definition reset : Act unit :=
  modify (set_sessionId None) ;;
  modify (set_seq 0) ;;
  modify (set_lastACKAt 0) ;;
  modify (set__trace None) ;;
  clearHeartBeat.

(** [_reconnect] up to its [await]: everything before the transport's
    [close] promise settles.  The call is then suspended. *)
Definition _reconnect (resume : bool) : Act unit :=
  when resume (modify (set_reconnecting true)) ;;
  when (wsStatus env =? 2)
    (tell (ClientError
       ("Client was attempting to " ++ (if resume then "resume" else "reconnect")
        ++ " while the WebSocket was still in the connecting state. This should never happen.")%string)) ;;
  tell (WsClose (if resume then 4000 else 1012) "reconnecting") ;;
  c <- get ;;
  modify (set_suspended (suspended c ++ [resume])).

(** [_reconnect] after its [await]. *)
Definition _reconnect_resumed (resume : bool) : Act unit :=
  (if resume then clearHeartBeat else reset) ;;
  connect.

(** ** Sends *)

Definition resume : Act unit :=
  when (negb (wsStatus env =? 1)) (debug DbgResumeNotOpen) ;;
  c <- get ;;
  debug (DbgResuming (id c)) ;;
  modify (set_status resuming) ;;
  tell (EmitStateChange resuming) ;;
  c <- get ;;
  tell (WsSend (OutResume (seq c) (token (options c)) (sessionId c))).

Definition heartbeat : Act unit :=
  when (negb (wsStatus env =? 1)) (debug DbgHeartbeatNotOpen) ;;
  c <- get ;;
  tell (WsSend (OutHeartbeat (seq c))) ;;
  modify (set_lastHeartbeatSend (now env)).

Definition identify (force : option bool) : Act unit :=
  when (negb (wsStatus env =? 1)) (debug DbgIdentifyNotOpen) ;;
  c <- get ;;
  if JS.truthyOpt JS.truthyStr (sessionId c)
     && negb (JS.truthyOpt (fun b : bool => b) force)
  then resume
  else
    debug (DbgIdentifying (id c)) ;;
    modify (set_status identifying) ;;
    tell (EmitStateChange identifying) ;;
    presence <-
      match initialPresence (options c) with
      | Some p =>
        p' <- _checkPresenceData atInitialPresence p ;;
        c1 <- get ;;
        ret (Some (snapshot p' c1))
      | None => ret None
      end ;;
    tell (WsSend (OutIdentify
      (token (options c))
      (largeGuildThreshold (options c))
      (id c, JS.orElse JS.truthyNum (totalShards (options c)) 1)
      (match intents (options c) with
       | Some i => if JS.truthyNum i then Intents_resolve i else 0
       | None => 0
       end)
      presence)).

Definition presenceUpdate (data : Presence) : Act unit :=
  p' <- _checkPresenceData atCaller data ;;
  c <- get ;;
  tell (WsSend (OutPresenceUpdate (snapshot p' c))).

Definition voiceStateUpdate (data : option VoiceState) : Act unit :=
  match data with
  | None => ret tt
  | Some v => tell (WsSend (OutVoiceStateUpdate (_checkVoiceStateUpdateData v)))
  end.

Definition requestGuildMembers (data : MembersRequest) : Act unit :=
  tell (WsSend (OutRequestGuildMembers (_checkRequestGuildMembersData data))).


(** ** Inbound messages *)

(** Lines 108 to 115 of [messageAction]: sequence tracking. *)
Definition trackSequence (m : Message) : Act unit :=
  match s m with
  | Some sv =>
    if JS.truthyNum sv then
      c <- get ;;
      (if sv >? seq c + 1 then
         debug (DbgInvalidSequence (id c) (seq c) sv) ;;
         modify (set_seq sv) ;;
         resume
       else ret tt) ;;
      modify (set_seq sv)
    else ret tt
  | None => ret tt
  end.

Definition isSessionEvent (m : Message) : bool :=
  match t m with
  | Some n => String.eqb n "READY" || String.eqb n "RESUMED"
  | None => false
  end.

Definition handleDispatch (m : Message) : Act unit :=
  if isSessionEvent m then
    (if JS.truthyOpt (fun n => String.eqb n "READY") (t m) then
       v <- readD m ;;
       modify (set_sessionId (session_id v))
     else ret tt) ;;
    modify (set_status ready) ;;
    tell (EmitStateChange ready) ;;
    v <- readD m ;;
    modify (set__trace (d_trace v)) ;;
    tell (EmitReady (JS.truthyOpt (fun n => String.eqb n "RESUMED") (t m))) ;;
    tell (EmitEvent m)
  else tell (EmitEvent m).

(** The liveness test of the heartbeat callback. *)
Definition ackOverdue (c : Connector) : bool :=
  lastACKAt c <=? now env - (heartbeatInterval c + 5000).

(** The callback given to [setInterval] on hello. *)
Definition heartbeatTick : Act unit :=
  c <- get ;;
  if ackOverdue c then
    debug (DbgNoAck (id c) (heartbeatInterval c + 5000)) ;;
    if opt_reconnect (options c) then _reconnect true else disconnect
  else heartbeat.

(** [case OP.RECONNECT] of [messageAction]. *)
Definition onReconnect : Act unit :=
  c <- get ;;
  debug (DbgAskedToReconnect (id c)) ;;
  if opt_reconnect (options c) then _reconnect true else disconnect.

(** [case OP.INVALID_SESSION]. *)
Definition onInvalidSession (m : Message) : Act unit :=
  c <- get ;;
  if JS.truthyOpt d_truthy (d m) && JS.truthyOpt JS.truthyStr (sessionId c)
  then resume
  else
    modify (set_seq 0) ;;
    modify (set_sessionId (Some "")) ;;
    tell (EmitQueueIdentify (id c)).

(** [case OP.HELLO]. *)
Definition onHello (m : Message) : Act unit :=
  c <- get ;;
  debug (DbgHello (id c)) ;;
  heartbeat ;;
  v <- readD m ;;
  modify (set_heartbeatInterval (heartbeat_interval v)) ;;
  h <- setInterval (heartbeat_interval v) ;;
  modify (set_heartbeatTimeout (Some h)) ;;
  v' <- readD m ;;
  modify (set__trace (d_trace v')) ;;
  tell (EmitQueueIdentify (id c)).

(** [case OP.HEARTBEAT_ACK]. *)
Definition onHeartbeatAck : Act unit :=
  modify (set_lastACKAt (now env)) ;;
  c <- get ;;
  modify (set_latency (lastACKAt c - lastHeartbeatSend c)).

(** The [switch (message.op)] of [messageAction]. *)
Definition route (m : Message) : Act unit :=
  if op m =? OP.DISPATCH then handleDispatch m
  else if op m =? OP.HEARTBEAT then heartbeat
  else if op m =? OP.RECONNECT then onReconnect
  else if op m =? OP.INVALID_SESSION then onInvalidSession m
  else if op m =? OP.HELLO then onHello m
  else if op m =? OP.HEARTBEAT_ACK then onHeartbeatAck
  else tell (EmitEvent m).

Definition messageAction (m : Message) : Act unit :=
  tell (ClientRawReceive m) ;;
  trackSequence m ;;
  route m.

(** ** Transport close *)

(** One of the [if (code === k) { error; clearHeartBeat; connect }]
    blocks of [handleWsClose]. *)
Definition preserveAndConnect (code k : Z) (txt : string) : Act unit :=
  when (code =? k) (tell (ClientError txt) ;; clearHeartBeat ;; connect).

Definition handleWsClose (code : Z) (reason : string) : Act unit :=
  modify (set_status disconnected) ;;
  tell (EmitStateChange disconnected) ;;
  when (code =? 4014) (tell (ClientError "Disallowed Intents, check your client options and application page.")) ;;
  when (code =? 4013) (tell (ClientError "Invalid Intents data, check your client options.")) ;;
  when (code =? 4012) (tell (ClientError "Invalid API version.")) ;;
  when (code =? 4011) (tell (ClientError "Shard would be on over 2500 guilds. Add more shards.")) ;;
  when (code =? 4010) (tell (ClientError "Invalid sharding data, check your client options.")) ;;
  preserveAndConnect code 4009 "Session timed out." ;;
  preserveAndConnect code 4008 "You are being rate limited. Wait before sending more packets." ;;
  when (code =? 4007)
    (tell (ClientError "Invalid sequence. Reconnecting and starting a new session.") ;;
     reset ;;
     connect) ;;
  preserveAndConnect code 4005 "You sent more than one OP 2 IDENTIFY payload while the websocket was open." ;;
  when (code =? 4004) (tell (ClientError "Tried to connect with an invalid token")) ;;
  preserveAndConnect code 4003 "You tried to send a packet before sending an OP 2 IDENTIFY or OP 6 RESUME." ;;
  preserveAndConnect code 4002 "You sent an invalid payload" ;;
  preserveAndConnect code 4001 "You sent an invalid opcode or invalid payload for an opcode" ;;
  g4000 <-
    (if code =? 4000 then
       c <- get ;;
       if reconnecting c then ret true
       else
         tell (ClientError "Error code 4000 received. Attempting to resume") ;;
         clearHeartBeat ;;
         connect ;;
         ret false
     else ret false) ;;
  c <- get ;;
  let gracefulClose := g4000 || ((code =? 1000) && _closing c) in
  modify (set__closing false) ;;
  when gracefulClose clearHeartBeat ;;
  tell (EmitDisconnect code reason gracefulClose).

(** The [ws_open] listener installed by the constructor. *)
Definition handleWsOpen : Act unit :=
  modify (set_status connecting) ;;
  tell (EmitStateChange connecting) ;;
  modify (set_reconnecting false).

End Handlers.

(** ** The connector as a reactive system *)

(** The constructor: a fresh connector for shard [i] over the activity
    objects [objs] that presence data may refer to. *)
Definition init (i : Z) (opts : Options) (objs : list Activity) : Connector :=
  {| id := i; options := opts; heartbeatTimeout := None; heartbeatInterval := 0;
     _trace := None; seq := 0; status := disconnected; sessionId := None;
     lastACKAt := 0; lastHeartbeatSend := 0; latency := 0; _closing := false;
     reconnecting := false; timers := []; nextTimer := 0%nat; suspended := [];
     heap := objs |}.

(** Everything that can make the connector run: the notifications of the
    transport, a heartbeat timer firing, the transport's [close] promise
    settling for a suspended [_reconnect], and the calls of the consumer. *)
Inductive Event :=
| EvOpen
| EvMessage (m : Message)
| EvClose (code : Z) (reason : string)
| EvTick (handle : nat)
| EvSettled (n : nat)
| CallConnect
| CallDisconnect
| CallIdentify (force : option bool)
| CallPresenceUpdate (data : Presence)
| CallVoiceStateUpdate (data : option VoiceState)
| CallRequestGuildMembers (data : MembersRequest).

Section System.

Variable Intents_resolve : Z -> Z.

Definition step (env : Env) (e : Event) : Act unit :=
  match e with
  | EvOpen => handleWsOpen
  | EvMessage m => messageAction env m
  | EvClose code reason => handleWsClose code reason
  | EvTick h =>
    (* a timer that was cleared no longer fires *)
    fun c => if bool_decide (h ∈ timers c) then heartbeatTick env c else ret tt c
  | EvSettled n =>
    (* the [n]-th suspended [_reconnect] goes on after its [await] *)
    fun c =>
      match suspended c !! n with
      | Some r =>
        (modify (set_suspended (delete n (suspended c))) ;;
         _reconnect_resumed r) c
      | None => ret tt c
      end
  | CallConnect => connect
  | CallDisconnect => disconnect
  | CallIdentify force => identify env Intents_resolve force
  | CallPresenceUpdate data => presenceUpdate env data
  | CallVoiceStateUpdate data => voiceStateUpdate data
  | CallRequestGuildMembers data => requestGuildMembers data
  end.

(** A run: the events in order, each under its own surroundings.  A
    handler that throws ends its own run only; what it did stays done. *)
Fixpoint run (evs : list (Env * Event)) (c : Connector) : Connector * list Effect :=
  match evs with
  | [] => (c, [])
  | (env, e) :: rest =>
    let r := step env e c in
    let '(c', l) := run rest (st r) in
    (c', log r ++ l)
  end.


End System.

(** ** Reading a log *)

Definition isClearInterval (e : Effect) : bool :=
  match e with ClearInterval _ => true | _ => false end.

Definition isWsConnect (e : Effect) : bool :=
  match e with WsConnect => true | _ => false end.

Definition isClientError (e : Effect) : bool :=
  match e with ClientError _ => true | _ => false end.

Definition isResumeSend (e : Effect) : bool :=
  match e with WsSend (OutResume _ _ _) => true | _ => false end.

Definition isQueueIdentify (e : Effect) : bool :=
  match e with EmitQueueIdentify _ => true | _ => false end.

(** How many effects of a log satisfy [p]. *)
Definition count (p : Effect -> bool) (l : list Effect) : nat :=
  length (List.filter p l).

(** The effects of [clearHeartBeat] in state [c]. *)
Definition cancelled (c : Connector) : list Effect :=
  match heartbeatTimeout c with
  | Some h => [ClearInterval h]
  | None => []
  end.

(** ** Sample data *)

Module Sample.

Definition opts (auto : bool) : Options :=
  {| opt_reconnect := auto; token := "token"; largeGuildThreshold := None;
     totalShards := None; intents := None; initialPresence := None |}.

Definition env0 : Env := {| now := 100000; wsStatus := 1 |}.

(** A tick that comes 50 s after the last heartbeat was sent. *)
Definition late : Env := {| now := 110000; wsStatus := 1 |}.

Definition resolve (bits : Z) : Z := bits.

(** A connector with an established session and a running heartbeat. *)
Definition established (auto closing : bool) : Connector :=
  {| id := 0; options := opts auto; heartbeatTimeout := Some 0%nat;
     heartbeatInterval := 40000; _trace := None; seq := 42; status := ready;
     sessionId := Some "abc"; lastACKAt := 0; lastHeartbeatSend := 60000;
     latency := 0; _closing := closing; reconnecting := false;
     timers := [0%nat]; nextTimer := 1%nat; suspended := []; heap := [] |}.

Definition payload (truthy : bool) (interval : Z) (session : option string) : option DataView :=
  Some {| d_truthy := truthy; heartbeat_interval := interval;
          d_trace := None; session_id := session |}.

Definition helloMsg : Message :=
  {| op := 10;
     d := Some {| d_truthy := true; heartbeat_interval := 40000;
                  d_trace := Some "gateway-1"; session_id := None |};
     s := None; t := None |}.

Definition readyMsg : Message :=
  {| op := 0; d := payload true 0 (Some "abc"); s := Some 1; t := Some "READY" |}.

Definition invalidSessionMsg (resumable : bool) : Message :=
  {| op := 9; d := payload resumable 0 None; s := None; t := None |}.

Definition reconnectMsg : Message :=
  {| op := 7; d := None; s := None; t := None |}.

Definition guildCreateMsg (sq : Z) : Message :=
  {| op := 0; d := payload true 0 None; s := Some sq; t := Some "GUILD_CREATE" |}.

(** Two activities in a row without a name; the second has no type
    either, but a URL. *)
Definition nameless : list Activity :=
  [ {| name := Some ""; type := Some 0; url := None |};
    {| name := None; type := None; url := Some "https://twitch.tv/cloudstorm" |} ].

Definition presence : Presence :=
  {| p_status := None; activities := Some [0%nat; 1%nat];
     afk := None; since := None |}.

Definition optsWithPresence : Options :=
  {| opt_reconnect := true; token := "token"; largeGuildThreshold := None;
     totalShards := None; intents := None; initialPresence := Some presence |}.

(** A fresh connector that has connected and received hello, and is
    waiting to identify. *)
Definition greeted (auto : bool) : Connector :=
  fst (run resolve
         [(env0, CallConnect); (env0, EvOpen); (env0, EvMessage helloMsg)]
         (init 0 (opts auto) [])).

End Sample.

(** ** Vocabulary of the statements *)

(** The state after [clearHeartBeat]. *)
Definition heartStopped (c : Connector) : Connector :=
  set_heartbeatInterval 0
    (set_heartbeatTimeout None
       (match heartbeatTimeout c with
        | Some h => set_timers (filter (fun x => x <> h) (timers c)) c
        | None => c
        end)).

(** Whether the sequence number of [m] is counted as a gap in state [c]. *)
Definition gap (m : Message) (c : Connector) : bool :=
  match s m with
  | Some sv => JS.truthyNum sv && (sv >? seq c + 1)
  | None => false
  end.

(** The sequence stored once the sequence number of [m] has been looked at. *)
Definition seqAfter (m : Message) (c : Connector) : Z :=
  match s m with
  | Some sv => if JS.truthyNum sv then sv else seq c
  | None => seq c
  end.

(** The effects of [resume] in state [c], the sequence being [sq]. *)
Definition resumeLog (env : Env) (sq : Z) (c : Connector) : list Effect :=
  (if wsStatus env =? 1 then [] else [ClientDebug DbgResumeNotOpen])
  ++ [ClientDebug (DbgResuming (id c)); EmitStateChange resuming;
      WsSend (OutResume sq (token (options c)) (sessionId c))].

(** Whether handling [e] in state [c] calls [disconnect]. *)
Definition callsDisconnect (env : Env) (e : Event) (c : Connector) : bool :=
  match e with
  | CallDisconnect => true
  | EvMessage m => (op m =? OP.RECONNECT) && negb (opt_reconnect (options c))
  | EvTick h =>
    bool_decide (h ∈ timers c) && ackOverdue env c
    && negb (opt_reconnect (options c))
  | _ => false
  end.

Section Quiet.

Variable Intents_resolve : Z -> Z.

(** No event of the run [evs] from [c] calls [disconnect]. *)
Fixpoint noDisconnect (evs : list (Env * Event)) (c : Connector) : bool :=
  match evs with
  | [] => true
  | (env, e) :: rest =>
    negb (callsDisconnect env e c)
    && noDisconnect rest (st (step Intents_resolve env e c))
  end.

End Quiet.

(** The state once the sequence number of [m] has been looked at. *)
Definition tracked (m : Message) (c : Connector) : Connector :=
  set_seq (seqAfter m c) (if gap m c then set_status resuming c else c).

(** The effects of looking at the sequence number of [m]. *)
Definition trackLog (env : Env) (m : Message) (c : Connector) : list Effect :=
  if gap m c
  then ClientDebug (DbgInvalidSequence (id c) (seq c) (seqAfter m c))
       :: resumeLog env (seqAfter m c) c
  else [].

(** The effects of [_reconnect(resume)] up to its [await]. *)
Definition reconnectLog (env : Env) (resume : bool) : list Effect :=
  (if wsStatus env =? 2
   then [ClientError
           ("Client was attempting to " ++ (if resume then "resume" else "reconnect")
            ++ " while the WebSocket was still in the connecting state. This should never happen.")%string]
   else [])
  ++ [WsClose (if resume then 4000 else 1012) "reconnecting"].

(** Whether a session-invalid message [m] is answered by a resume in [c]. *)
Definition resumable (m : Message) (c : Connector) : bool :=
  JS.truthyOpt d_truthy (d m) && JS.truthyOpt JS.truthyStr (sessionId c).


(** Every suspended [_reconnect] is of the resume kind. *)
Definition allResume (c : Connector) : bool :=
  forallb (fun r : bool => r) (suspended c).

Definition isReady (m : Message) : bool :=
  JS.truthyOpt (fun n => String.eqb n "READY") (t m).

Definition isResumed (m : Message) : bool :=
  JS.truthyOpt (fun n => String.eqb n "RESUMED") (t m).


Section Calm.

Variable Intents_resolve : Z -> Z.


End Calm.


(** An action that leaves the observation [f] of the state as it is. *)
Definition preserves {A X : Type} (f : Connector -> X) (m : Act A) : Prop :=
  forall c, f (st (m c)) = f c.

(** The session identifier, the closing flag and the suspended calls. *)
Definition sessionCore (c : Connector) : option string * bool * list bool :=
  (sessionId c, _closing c, suspended c).

(** ** Vocabulary of the further properties *)

Definition isEmitDisconnect (e : Effect) : bool :=
  match e with EmitDisconnect _ _ _ => true | _ => false end.

Definition isEmitEvent (e : Effect) : bool :=
  match e with EmitEvent _ => true | _ => false end.

Definition isEmitReady (e : Effect) : bool :=
  match e with EmitReady _ => true | _ => false end.

Definition isWsClose (e : Effect) : bool :=
  match e with WsClose _ _ => true | _ => false end.

Definition isSetInterval (e : Effect) : bool :=
  match e with SetInterval _ _ => true | _ => false end.

Definition isWsSend (e : Effect) : bool :=
  match e with WsSend _ => true | _ => false end.

(** The close codes after which [handleWsClose] calls [connect]. *)
Definition reconnectsOn (code : Z) (c : Connector) : bool :=
  (code =? 4009) || (code =? 4008) || (code =? 4007) || (code =? 4005)
  || (code =? 4003) || (code =? 4002) || (code =? 4001)
  || ((code =? 4000) && negb (reconnecting c)).

(** The close codes for which [handleWsClose] emits an error. *)
Definition reportsErrorOn (code : Z) (c : Connector) : bool :=
  (code =? 4014) || (code =? 4013) || (code =? 4012) || (code =? 4011)
  || (code =? 4010) || (code =? 4004) || reconnectsOn code c.

(** The closes that [handleWsClose] takes for the connector's own. *)
Definition gracefulOn (code : Z) (c : Connector) : bool :=
  ((code =? 4000) && reconnecting c) || ((code =? 1000) && _closing c).

(** The debug notification of a send made while the transport is not
    open. *)
Definition notOpen (env : Env) (txt : DebugText) : list Effect :=
  if wsStatus env =? 1 then [] else [ClientDebug txt].

(** Whether [messageAction] hands [m] upward as an [event]. *)
Definition forwarded (m : Message) : bool :=
  if op m =? OP.DISPATCH then
    (if isSessionEvent m then JS.truthyOpt (fun _ => true) (d m) else true)
  else negb ((op m =? OP.HEARTBEAT) || (op m =? OP.RECONNECT)
             || (op m =? OP.INVALID_SESSION) || (op m =? OP.HELLO)
             || (op m =? OP.HEARTBEAT_ACK)).

(** The events that can change the stored sequence: an inbound message,
    and the close with code 4007. *)
Definition mayChangeSeq (e : Event) : bool :=
  match e with
  | EvMessage _ => true
  | EvClose code _ => code =? 4007
  | _ => false
  end.

(** Whether the reference [r] is to an activity with a name, in store [h]. *)
Definition namedIn (h : list Activity) (r : nat) : bool :=
  match h !! r with
  | Some a => JS.truthyOpt JS.truthyStr (name a)
  | None => false
  end.

(** No two entries in a row are without a name. *)
Fixpoint noNamelessPair (h : list Activity) (arr : list nat) : bool :=
  match arr with
  | [] => true
  | r :: rest =>
    match rest with
    | [] => true
    | r' :: _ => (namedIn h r || namedIn h r') && noNamelessPair h rest
    end
  end.

(** The stored timer handle, if any, is of a timer that is scheduled. *)
Definition handleIsLive (c : Connector) : bool :=
  match heartbeatTimeout c with
  | Some h => bool_decide (h ∈ timers c)
  | None => true
  end.

(** The stored timer handle and the timers that are scheduled. *)
Definition timerView (c : Connector) : option nat * list nat :=
  (heartbeatTimeout c, timers c).

(** Whether the reference [r] is to an object of the store [h]. *)
Definition isObject (h : list Activity) (r : nat) : bool :=
  match h !! r with
  | Some _ => true
  | None => false
  end.

Definition isReadyStatus (s : Status) : bool :=
  match s with ready => true | _ => false end.

(** Whether [e] is the receipt of a "READY" or "RESUMED" dispatch. *)
Definition sessionDispatch (e : Event) : bool :=
  match e with
  | EvMessage m => (op m =? OP.DISPATCH) && isSessionEvent m
  | _ => false
  end.

(** Whether handling [e] in state [c] calls [_reconnect(true)], which sets
    the pending-resume flag: a reconnect request, or a heartbeat tick that
    finds the acknowledgement overdue, with automatic reconnection on. *)
Definition startsReconnect (env : Env) (e : Event) (c : Connector) : bool :=
  match e with
  | EvMessage m => (op m =? OP.RECONNECT) && opt_reconnect (options c)
  | EvTick h =>
    bool_decide (h ∈ timers c) && ackOverdue env c && opt_reconnect (options c)
  | _ => false
  end.

Section Unprompted.

Variable Intents_resolve : Z -> Z.

(** No event of the run [evs] from [c] calls [_reconnect(true)]. *)
Fixpoint noReconnect (evs : list (Env * Event)) (c : Connector) : bool :=
  match evs with
  | [] => true
  | (env, e) :: rest =>
    negb (startsReconnect env e c)
    && noReconnect rest (st (step Intents_resolve env e c))
  end.

End Unprompted.

(** * Verification *)

(** ** Building blocks *)

Lemma clearHeartBeat_eq (c : Connector) :
  clearHeartBeat c = mkRes (Some tt) (heartStopped c) (cancelled c).
Proof.
  destruct c as [? ? [h|] ? ? ? ? ? ? ? ? ? ? ? ? ? ?]; reflexivity.
Qed.

Lemma connect_eq (c : Connector) :
  connect c = mkRes (Some tt) (set__closing false c)
                [ClientDebug (DbgConnecting (id c)); WsConnect].
Proof. reflexivity. Qed.

Lemma disconnect_eq (c : Connector) :
  disconnect c = mkRes (Some tt) (set__closing true c)
                   [WsClose 1000 "Disconnected by User"].
Proof. reflexivity. Qed.

(** ** Transport close *)

(** C5: a transport close with code 4007 emits the error notification,
    hard-resets the connector (session identifier cleared, sequence 0,
    heartbeat timer cancelled and forgotten) and asks the transport to
    connect again; the close is reported as not graceful. *)
Theorem close_4007_resets_and_reconnects (c : Connector) (reason : string) :
  val (handleWsClose 4007 reason c) = Some tt /\
  log (handleWsClose 4007 reason c) =
    [EmitStateChange disconnected;
      ClientError "Invalid sequence. Reconnecting and starting a new session."]
     ++ cancelled c
     ++ [ClientDebug (DbgConnecting (id c)); WsConnect;
         EmitDisconnect 4007 reason false] /\
  sessionId (st (handleWsClose 4007 reason c)) = None /\
  seq (st (handleWsClose 4007 reason c)) = 0 /\
  _trace (st (handleWsClose 4007 reason c)) = None /\
  heartbeatTimeout (st (handleWsClose 4007 reason c)) = None /\
  heartbeatInterval (st (handleWsClose 4007 reason c)) = 0 /\
  timers (st (handleWsClose 4007 reason c)) = timers (heartStopped c) /\
  status (st (handleWsClose 4007 reason c)) = disconnected.
Proof.
  destruct c as [? ? [h|] ? ? ? ? ? ? ? ? ? ? ? ? ? ?];
    vm_compute; repeat split; reflexivity.
Qed.

(** What [handleWsClose] does with code 1000, by the closing flag. *)
Lemma close_1000_eq (c : Connector) (reason : string) :
  handleWsClose 1000 reason c =
  if _closing c
  then mkRes (Some tt)
         (heartStopped (set__closing false (set_status disconnected c)))
         ([EmitStateChange disconnected] ++ cancelled c
          ++ [EmitDisconnect 1000 reason true])
  else mkRes (Some tt) (set_status disconnected c)
         [EmitStateChange disconnected; EmitDisconnect 1000 reason false].
Proof.
  destruct c as [? ? [h|] ? ? ? ? ? ? ? ? [|] ? ? ? ? ?]; reflexivity.
Qed.

(** C8: a close with code 1000 that arrives while the closing flag is set
    asks for no reconnect, emits no error notification and is reported
    upward as graceful. *)
Theorem close_1000_while_closing_is_graceful (c : Connector) (reason : string) :
  _closing c = true ->
  log (handleWsClose 1000 reason c) =
    [EmitStateChange disconnected] ++ cancelled c
    ++ [EmitDisconnect 1000 reason true] /\
  count isWsConnect (log (handleWsClose 1000 reason c)) = 0%nat /\
  count isClientError (log (handleWsClose 1000 reason c)) = 0%nat /\
  _closing (st (handleWsClose 1000 reason c)) = false /\
  status (st (handleWsClose 1000 reason c)) = disconnected.
Proof.
  intros Hclosing. rewrite close_1000_eq, Hclosing.
  destruct c as [? ? [h|] ? ? ? ? ? ? ? ? ? ? ? ? ? ?]; repeat split; reflexivity.
Qed.

(** An instance: a user disconnect acknowledged by the transport. *)
Lemma close_1000_while_closing_is_graceful_witness :
  _closing (Sample.established true true) = true /\
  log (handleWsClose 1000 "Disconnected by User" (Sample.established true true)) =
    [EmitStateChange disconnected; ClearInterval 0;
     EmitDisconnect 1000 "Disconnected by User" true].
Proof.
  split; [reflexivity|].
  exact (proj1 (close_1000_while_closing_is_graceful
                  (Sample.established true true) "Disconnected by User" eq_refl)).
Defined.

(** ** Inbound messages *)

Ltac split_ifs :=
  repeat match goal with
  | |- context [if ?b then _ else _] => destruct b eqn:?
  | |- context [match ?o with Some _ => _ | None => _ end] => destruct o eqn:?
  end.

Ltac eval_act :=
  cbv -[Z.eqb Z.gtb Z.leb Z.add Z.sub String.eqb gap seqAfter ackOverdue
        filter elem_of bool_decide activitiesLoop].

(** Sequencing after an action that is known to complete. *)
Lemma bind_completed {A B : Type} (m : Act A) (k : A -> Act B)
    (c c1 : Connector) (a : A) (l1 : list Effect) :
  m c = mkRes (Some a) c1 l1 ->
  bind m k c = mkRes (val (k a c1)) (st (k a c1)) (l1 ++ log (k a c1)).
Proof. intros Hm. unfold bind. rewrite Hm. reflexivity. Qed.

Lemma trackSequence_eq (env : Env) (m : Message) (c : Connector) :
  trackSequence env m c = mkRes (Some tt) (tracked m c) (trackLog env m c).
Proof.
  unfold trackSequence, tracked, trackLog, gap, seqAfter, resumeLog.
  destruct env as [nw ws], c, m as [o dd [sv|] tt]; cbn [s seq]; [|reflexivity].
  destruct (JS.truthyNum sv); [|reflexivity].
  cbn [andb]. destruct (sv >? seq0 + 1) eqn:Hgap.
  - eval_act. rewrite Hgap. destruct (ws =? 1); reflexivity.
  - eval_act. rewrite Hgap. reflexivity.
Qed.

Lemma messageAction_eq (env : Env) (m : Message) (c : Connector) :
  messageAction env m c =
  mkRes (val (route env m (tracked m c)))
        (st (route env m (tracked m c)))
        (ClientRawReceive m :: trackLog env m c ++ log (route env m (tracked m c))).
Proof.
  unfold messageAction.
  rewrite (bind_completed _ _ c c tt [ClientRawReceive m]) by reflexivity.
  rewrite (bind_completed _ _ c _ tt _ (trackSequence_eq env m c)).
  reflexivity.
Qed.

Lemma reconnect_eq (env : Env) (resume : bool) (c : Connector) :
  _reconnect env resume c =
  mkRes (Some tt)
        (set_suspended (suspended c ++ [resume])
           (if resume then set_reconnecting true c else c))
        (reconnectLog env resume).
Proof.
  destruct env as [nw ws], c, resume; unfold reconnectLog; eval_act;
    destruct (ws =? 2); reflexivity.
Qed.

(** The transport's [close] settles for the [_reconnect] suspended last. *)
Lemma settled_new (resolve : Z -> Z) (env : Env) (c : Connector)
    (l : list bool) (r : bool) :
  suspended c = l ++ [r] ->
  step resolve env (EvSettled (length l)) c
  = _reconnect_resumed r (set_suspended l c).
Proof.
  intros Hs. cbn [step]. rewrite Hs.
  rewrite lookup_app_r, Nat.sub_diag by lia. cbn [lookup list_lookup].
  assert (Hdel : delete (length l) (l ++ [r]) = l).
  { clear. induction l as [|x l IH]; cbn; [reflexivity|].
    f_equal. exact IH. }
  rewrite Hdel.
  destruct c as [? ? [h|] ? ? ? ? ? ? ? ? ? ? ? ? ? ?], r; reflexivity.
Qed.

(** The cases of the opcode switch. *)
Lemma route_dispatch (env : Env) (m : Message) :
  op m = OP.DISPATCH -> route env m = handleDispatch m.
Proof. unfold route. intros ->. reflexivity. Qed.

Lemma route_heartbeat (env : Env) (m : Message) :
  op m = OP.HEARTBEAT -> route env m = heartbeat env.
Proof. unfold route. intros ->. reflexivity. Qed.

Lemma route_reconnect (env : Env) (m : Message) :
  op m = OP.RECONNECT -> route env m = onReconnect env.
Proof. unfold route. intros ->. reflexivity. Qed.

Lemma route_invalid_session (env : Env) (m : Message) :
  op m = OP.INVALID_SESSION -> route env m = onInvalidSession env m.
Proof. unfold route. intros ->. reflexivity. Qed.

Lemma route_hello (env : Env) (m : Message) :
  op m = OP.HELLO -> route env m = onHello env m.
Proof. unfold route. intros ->. reflexivity. Qed.

Lemma route_heartbeat_ack (env : Env) (m : Message) :
  op m = OP.HEARTBEAT_ACK -> route env m = onHeartbeatAck env.
Proof. unfold route. intros ->. reflexivity. Qed.

Lemma route_other (env : Env) (m : Message) :
  op m <> OP.DISPATCH -> op m <> OP.HEARTBEAT -> op m <> OP.RECONNECT ->
  op m <> OP.INVALID_SESSION -> op m <> OP.HELLO -> op m <> OP.HEARTBEAT_ACK ->
  route env m = tell (EmitEvent m).
Proof.
  unfold route. intros H0 H1 H7 H9 H10 H11.
  repeat match goal with
  | H : op m <> ?k |- context [op m =? ?k] =>
    rewrite (proj2 (Z.eqb_neq (op m) k) H)
  end.
  reflexivity.
Qed.

(** The opcode of a message is one of the six the switch names, or another. *)
Lemma op_cases (m : Message) :
  op m = OP.DISPATCH \/ op m = OP.HEARTBEAT \/ op m = OP.RECONNECT \/
  op m = OP.INVALID_SESSION \/ op m = OP.HELLO \/ op m = OP.HEARTBEAT_ACK \/
  (op m <> OP.DISPATCH /\ op m <> OP.HEARTBEAT /\ op m <> OP.RECONNECT /\
   op m <> OP.INVALID_SESSION /\ op m <> OP.HELLO /\ op m <> OP.HEARTBEAT_ACK).
Proof. unfold OP.DISPATCH, OP.HEARTBEAT, OP.RECONNECT, OP.INVALID_SESSION, OP.HELLO, OP.HEARTBEAT_ACK. lia. Qed.

Lemma onReconnect_eq (env : Env) (c : Connector) :
  onReconnect env c =
  if opt_reconnect (options c)
  then mkRes (Some tt)
         (set_suspended (suspended c ++ [true]) (set_reconnecting true c))
         (ClientDebug (DbgAskedToReconnect (id c)) :: reconnectLog env true)
  else mkRes (Some tt) (set__closing true c)
         [ClientDebug (DbgAskedToReconnect (id c));
          WsClose 1000 "Disconnected by User"].
Proof.
  unfold onReconnect.
  rewrite (bind_completed _ _ c c c []) by reflexivity.
  rewrite (bind_completed _ _ c c tt [ClientDebug (DbgAskedToReconnect (id c))])
    by reflexivity.
  destruct (opt_reconnect (options c)).
  - rewrite reconnect_eq. reflexivity.
  - rewrite disconnect_eq. reflexivity.
Qed.

(** ** Reconnect request *)

(** C3, as the code has it: on opcode 7 with automatic reconnection the
    connector marks a pending resume, closes the transport with code 4000
    and, once that close has settled, cancels the heartbeat and connects
    again, the session identifier and the sequence being kept (no hard
    reset); without automatic reconnection it sets the closing flag and
    closes with code 1000, which the close handler then reports as
    graceful. *)
Theorem reconnect_request_keeps_session
    (resolve : Z -> Z) (env env' : Env) (m : Message) (c : Connector)
    (reason : string) :
  op m = OP.RECONNECT ->
  val (messageAction env m c) = Some tt /\
  if opt_reconnect (options c) then
    log (messageAction env m c) =
      ClientRawReceive m :: trackLog env m c
      ++ ClientDebug (DbgAskedToReconnect (id c)) :: reconnectLog env true /\
    st (messageAction env m c) =
      set_suspended (suspended c ++ [true]) (set_reconnecting true (tracked m c)) /\
    log (step resolve env' (EvSettled (length (suspended c)))
           (st (messageAction env m c))) =
      cancelled c ++ [ClientDebug (DbgConnecting (id c)); WsConnect] /\
    sessionId (st (step resolve env' (EvSettled (length (suspended c)))
                     (st (messageAction env m c)))) = sessionId c /\
    seq (st (step resolve env' (EvSettled (length (suspended c)))
               (st (messageAction env m c)))) = seqAfter m c /\
    heartbeatTimeout (st (step resolve env' (EvSettled (length (suspended c)))
                            (st (messageAction env m c)))) = None
  else
    log (messageAction env m c) =
      ClientRawReceive m :: trackLog env m c
      ++ [ClientDebug (DbgAskedToReconnect (id c));
          WsClose 1000 "Disconnected by User"] /\
    st (messageAction env m c) = set__closing true (tracked m c) /\
    log (handleWsClose 1000 reason (st (messageAction env m c))) =
      [EmitStateChange disconnected] ++ cancelled c
      ++ [EmitDisconnect 1000 reason true].
Proof.
  intros Hop.
  rewrite messageAction_eq, (route_reconnect _ _ Hop), onReconnect_eq.
  unfold tracked, trackLog.
  destruct c as [? opts [h|] ? ? ? ? ? ? ? ? ? ? ? ? susp ?];
    cbn [options id suspended set_seq set_status];
    destruct (gap m _); cbn [options id suspended set_seq set_status];
    destruct (opt_reconnect opts); cbn [val st log];
    (split; [reflexivity|]);
    try rewrite (settled_new resolve env' _ susp true) by reflexivity;
    try rewrite close_1000_eq;
    repeat split; reflexivity.
Qed.

(** An instance: the session "abc" survives a reconnect request. *)
Lemma reconnect_request_keeps_session_witness :
  op Sample.reconnectMsg = OP.RECONNECT /\
  sessionId
    (st (step Sample.resolve Sample.env0 (EvSettled 0)
           (st (messageAction Sample.env0 Sample.reconnectMsg
                  (Sample.established true false))))) = Some "abc".
Proof.
  split; [reflexivity|].
  destruct (reconnect_request_keeps_session Sample.resolve Sample.env0
              Sample.env0 Sample.reconnectMsg (Sample.established true false)
              "" eq_refl) as (_ & _ & _ & _ & H & _).
  exact H.
Defined.

(** C3 as stated fails: with automatic reconnection, opcode 7 leads to a
    reconnect while the session identifier and the sequence are kept. *)
Lemma reconnect_request_no_hard_reset :
  op Sample.reconnectMsg = OP.RECONNECT /\
  opt_reconnect (options (Sample.established true false)) = true /\
  count isWsConnect
    (snd (run Sample.resolve
            [(Sample.env0, EvMessage Sample.reconnectMsg);
             (Sample.env0, EvSettled 0)]
            (Sample.established true false))) = 1%nat /\
  ~ (sessionId
       (fst (run Sample.resolve
               [(Sample.env0, EvMessage Sample.reconnectMsg);
                (Sample.env0, EvSettled 0)]
               (Sample.established true false))) = None /\
     seq
       (fst (run Sample.resolve
               [(Sample.env0, EvMessage Sample.reconnectMsg);
                (Sample.env0, EvSettled 0)]
               (Sample.established true false))) = 0).
Proof.
  repeat split; try reflexivity.
  vm_compute. intros [Hsession _]. discriminate Hsession.
Qed.

(** ** Session invalidation *)

Lemma tracked_frame (m : Message) (c : Connector) :
  id (tracked m c) = id c /\ options (tracked m c) = options c /\
  sessionId (tracked m c) = sessionId c /\ seq (tracked m c) = seqAfter m c /\
  _trace (tracked m c) = _trace c /\
  heartbeatTimeout (tracked m c) = heartbeatTimeout c /\
  timers (tracked m c) = timers c /\ _closing (tracked m c) = _closing c /\
  suspended (tracked m c) = suspended c.
Proof.
  unfold tracked. destruct (gap m c), c; repeat split; reflexivity.
Qed.

Lemma onInvalidSession_eq (env : Env) (m : Message) (c : Connector) :
  onInvalidSession env m c =
  if resumable m c
  then mkRes (Some tt) (set_status resuming c) (resumeLog env (seq c) c)
  else mkRes (Some tt) (set_sessionId (Some "") (set_seq 0 c))
         [EmitQueueIdentify (id c)].
Proof.
  unfold onInvalidSession, resumable, resumeLog.
  rewrite (bind_completed _ _ c c c []) by reflexivity.
  destruct (JS.truthyOpt d_truthy (d m) && JS.truthyOpt JS.truthyStr (sessionId c));
    [|reflexivity].
  destruct env as [nw ws], c. eval_act. destruct (ws =? 1); reflexivity.
Qed.

(** C2, as the code has it: a session-invalid message is answered by a
    resume, nothing being cleared, when its payload is truthy and a session
    identifier is stored; otherwise the sequence is set to 0, the session
    identifier to the empty string and an identify-required notification is
    emitted, while the trace and the heartbeat timer are left as they
    are. *)
Theorem invalid_session_resumes_or_requeues
    (env : Env) (m : Message) (c : Connector) :
  op m = OP.INVALID_SESSION ->
  val (messageAction env m c) = Some tt /\
  if resumable m c then
    log (messageAction env m c) =
      ClientRawReceive m :: trackLog env m c ++ resumeLog env (seqAfter m c) c /\
    st (messageAction env m c) = set_status resuming (tracked m c) /\
    sessionId (st (messageAction env m c)) = sessionId c /\
    seq (st (messageAction env m c)) = seqAfter m c
  else
    log (messageAction env m c) =
      ClientRawReceive m :: trackLog env m c ++ [EmitQueueIdentify (id c)] /\
    st (messageAction env m c) =
      set_sessionId (Some "") (set_seq 0 (tracked m c)) /\
    _trace (st (messageAction env m c)) = _trace c /\
    heartbeatTimeout (st (messageAction env m c)) = heartbeatTimeout c /\
    timers (st (messageAction env m c)) = timers c /\
    count isClearInterval (log (messageAction env m c)) = 0%nat.
Proof.
  intros Hop.
  rewrite messageAction_eq, (route_invalid_session _ _ Hop), onInvalidSession_eq.
  destruct (tracked_frame m c) as (Hid & Hopts & Hsess & Hseq & Htr & Hhb & Htm & _).
  assert (Hres : resumable m (tracked m c) = resumable m c)
    by (unfold resumable; rewrite Hsess; reflexivity).
  rewrite Hres. destruct (resumable m c); cbn [val st log].
  - split; [reflexivity|]. unfold resumeLog. rewrite Hid, Hopts, Hsess, Hseq.
    repeat split; try reflexivity; destruct (tracked m c); assumption.
  - split; [reflexivity|]. rewrite Hid.
    repeat split; try reflexivity; try (destruct (tracked m c); assumption).
    unfold trackLog, resumeLog, count.
    destruct (gap m c), (wsStatus env =? 1); reflexivity.
Qed.

(** An instance: a resumable session-invalid message with a session stored. *)
Lemma invalid_session_resumes_or_requeues_witness :
  op (Sample.invalidSessionMsg true) = OP.INVALID_SESSION /\
  st (messageAction Sample.env0 (Sample.invalidSessionMsg true)
        (Sample.established true false))
  = set_status resuming (Sample.established true false).
Proof.
  split; [reflexivity|].
  destruct (invalid_session_resumes_or_requeues Sample.env0
              (Sample.invalidSessionMsg true) (Sample.established true false)
              eq_refl) as (_ & _ & H & _).
  exact H.
Defined.

(** C2 as stated fails twice.  With a session identifier stored, a
    session-invalid message whose payload is false is not answered by a
    resume, and the session identifier is emptied.  With none stored, the
    trace is kept and the heartbeat timer goes on. *)
Lemma invalid_session_not_as_stated :
  (JS.truthyOpt JS.truthyStr (sessionId (Sample.established true false)) = true /\
   count isResumeSend
     (log (messageAction Sample.env0 (Sample.invalidSessionMsg false)
             (Sample.established true false))) = 0%nat /\
   sessionId
     (st (messageAction Sample.env0 (Sample.invalidSessionMsg false)
            (Sample.established true false))) = Some "") /\
  (sessionId (Sample.greeted true) = None /\
   _trace
     (st (messageAction Sample.env0 (Sample.invalidSessionMsg false)
            (Sample.greeted true))) = Some "gateway-1" /\
   heartbeatTimeout
     (st (messageAction Sample.env0 (Sample.invalidSessionMsg false)
            (Sample.greeted true))) = Some 0%nat /\
   timers
     (st (messageAction Sample.env0 (Sample.invalidSessionMsg false)
            (Sample.greeted true))) = [0%nat] /\
   count isClearInterval
     (log (messageAction Sample.env0 (Sample.invalidSessionMsg false)
             (Sample.greeted true))) = 0%nat).
Proof. vm_compute. repeat split; reflexivity. Qed.

(** ** Sequence tracking *)

(** Decide the opcode tests of a statement once the opcode is known. *)
Ltac decide_tests :=
  repeat match goal with
  | H : op ?m <> ?k |- context [op ?m =? ?k] =>
    rewrite (proj2 (Z.eqb_neq (op m) k) H)
  | |- context [Z.eqb ?a ?b] =>
    let v := eval vm_compute in (Z.eqb a b) in
    lazymatch v with
    | true => change (Z.eqb a b) with true
    | false => change (Z.eqb a b) with false
    end
  end.

(** Case analysis on the opcode of [m] in a goal about [route env m]. *)
Ltac route_cases env m :=
  destruct (op_cases m)
    as [Hop|[Hop|[Hop|[Hop|[Hop|[Hop|(Hn0 & Hn1 & Hn7 & Hn9 & Hn10 & Hn11)]]]]]];
  [ rewrite (route_dispatch env m Hop)
  | rewrite (route_heartbeat env m Hop)
  | rewrite (route_reconnect env m Hop)
  | rewrite (route_invalid_session env m Hop)
  | rewrite (route_hello env m Hop)
  | rewrite (route_heartbeat_ack env m Hop)
  | rewrite (route_other env m Hn0 Hn1 Hn7 Hn9 Hn10 Hn11) ];
  try rewrite Hop; decide_tests.

(** The opcode switch changes the sequence only when a session-invalid
    message is not answered by a resume. *)
Lemma route_seq (env : Env) (m : Message) (c : Connector) :
  seq (st (route env m c)) =
  if (op m =? OP.INVALID_SESSION) && negb (resumable m c) then 0 else seq c.
Proof.
  route_cases env m; cbn [andb negb].
  - unfold handleDispatch, isSessionEvent, readD.
    destruct m as [o [v|] ss [n|]]; cbn [t d JS.truthyOpt];
      try destruct (String.eqb n "READY"); try destruct (String.eqb n "RESUMED");
      destruct c; reflexivity.
  - unfold heartbeat. destruct (wsStatus env =? 1), c; reflexivity.
  - rewrite onReconnect_eq. destruct c, (opt_reconnect _); reflexivity.
  - rewrite onInvalidSession_eq. destruct (resumable m c), c; reflexivity.
  - unfold onHello, heartbeat, readD.
    destruct (d m), (wsStatus env =? 1), c; reflexivity.
  - destruct c; reflexivity.
  - destruct c; reflexivity.
Qed.

(** C9, as the code has it.  Looking at the sequence number: an envelope
    whose [s] is 0 or missing leaves the stored sequence as it is and
    detects no gap, and every other [s], so every positive one, becomes
    the stored sequence.  Over the whole of [messageAction] the stored
    sequence ends as that value, except that a session-invalid message
    that is not answered by a resume sets it to 0. *)
Theorem sequence_after_message (env : Env) (m : Message) (c : Connector) :
  match s m with
  | Some sv =>
    if sv =? 0
    then seq (st (trackSequence env m c)) = seq c /\
         log (trackSequence env m c) = []
    else seq (st (trackSequence env m c)) = sv
  | None =>
    seq (st (trackSequence env m c)) = seq c /\
    log (trackSequence env m c) = []
  end /\
  seq (st (messageAction env m c)) =
    if (op m =? OP.INVALID_SESSION) && negb (resumable m c) then 0
    else match s m with
         | Some sv => if sv =? 0 then seq c else sv
         | None => seq c
         end.
Proof.
  destruct (tracked_frame m c) as (_ & _ & Hsess & Hseq & _).
  split.
  - rewrite trackSequence_eq. cbn [st log]. rewrite Hseq.
    unfold trackLog, gap, seqAfter, JS.truthyNum.
    destruct (s m) as [sv|]; [|split; reflexivity].
    destruct (sv =? 0); [split|]; reflexivity.
  - rewrite messageAction_eq. cbn [st]. rewrite route_seq.
    unfold resumable. rewrite Hsess, Hseq.
    unfold seqAfter, JS.truthyNum.
    destruct (s m) as [sv|]; [destruct (sv =? 0)|]; reflexivity.
Qed.

(** C9 as stated fails: a session-invalid envelope that carries no sequence
    number changes the stored sequence, from 42 to 0. *)
Lemma sequence_changed_without_sequence_number :
  s (Sample.invalidSessionMsg false) = None /\
  seq (Sample.established true false) = 42 /\
  seq (st (messageAction Sample.env0 (Sample.invalidSessionMsg false)
             (Sample.established true false))) = 0.
Proof. repeat split; reflexivity. Qed.

(** ** Sequence gap without a session *)

(** A gap is answered by a resume that carries the stored session
    identifier, whatever it is. *)
Lemma gap_resumes_whatever_the_session (env : Env) (m : Message) (c : Connector) :
  gap m c = true ->
  In (WsSend (OutResume (seqAfter m c) (token (options c)) (sessionId c)))
     (log (messageAction env m c)).
Proof.
  intros Hgap. rewrite messageAction_eq. cbn [log].
  right. apply in_or_app. left.
  unfold trackLog, resumeLog. rewrite Hgap.
  right. apply in_or_app. right. cbn. auto.
Qed.

(** C4 at its failing input: a connector that has no session identifier
    yet receives a dispatch whose sequence number leaves a gap; it sends a
    resume carrying no session identifier and emits no identify-required
    notification. *)
Theorem gap_without_session_sends_resume :
  sessionId (Sample.greeted true) = None /\
  seq (Sample.greeted true) = 0 /\
  log (messageAction Sample.env0 (Sample.guildCreateMsg 5) (Sample.greeted true)) =
    [ClientRawReceive (Sample.guildCreateMsg 5);
     ClientDebug (DbgInvalidSequence 0 0 5);
     ClientDebug (DbgResuming 0);
     EmitStateChange resuming;
     WsSend (OutResume 5 "token" None);
     EmitEvent (Sample.guildCreateMsg 5)] /\
  count isQueueIdentify
    (log (messageAction Sample.env0 (Sample.guildCreateMsg 5)
            (Sample.greeted true))) = 0%nat.
Proof. repeat split; reflexivity. Qed.

(** ** Heartbeat liveness *)

(** What [handleWsClose] does with code 4000, by the pending-resume flag. *)
Lemma close_4000_eq (c : Connector) (reason : string) :
  handleWsClose 4000 reason c =
  if reconnecting c
  then mkRes (Some tt)
         (heartStopped (set__closing false (set_status disconnected c)))
         ([EmitStateChange disconnected] ++ cancelled c
          ++ [EmitDisconnect 4000 reason true])
  else mkRes (Some tt)
         (set__closing false (heartStopped (set_status disconnected c)))
         ([EmitStateChange disconnected;
           ClientError "Error code 4000 received. Attempting to resume"]
          ++ cancelled c
          ++ [ClientDebug (DbgConnecting (id c)); WsConnect;
              EmitDisconnect 4000 reason false]).
Proof.
  destruct c as [? ? [h|] ? ? ? ? ? ? ? ? ? [|] ? ? ? ?]; reflexivity.
Qed.

(** The heartbeat callback when the acknowledgement is overdue. *)
Lemma heartbeatTick_overdue (env : Env) (c : Connector) :
  ackOverdue env c = true ->
  heartbeatTick env c =
  if opt_reconnect (options c)
  then mkRes (Some tt)
         (set_suspended (suspended c ++ [true]) (set_reconnecting true c))
         (ClientDebug (DbgNoAck (id c) (heartbeatInterval c + 5000))
          :: reconnectLog env true)
  else mkRes (Some tt) (set__closing true c)
         [ClientDebug (DbgNoAck (id c) (heartbeatInterval c + 5000));
          WsClose 1000 "Disconnected by User"].
Proof.
  intros Hover. unfold heartbeatTick.
  rewrite (bind_completed _ _ c c c []) by reflexivity.
  rewrite Hover.
  rewrite (bind_completed _ _ c c tt
             [ClientDebug (DbgNoAck (id c) (heartbeatInterval c + 5000))])
    by reflexivity.
  destruct (opt_reconnect (options c)).
  - rewrite reconnect_eq. reflexivity.
  - rewrite disconnect_eq. reflexivity.
Qed.

(** The heartbeat callback when the acknowledgement is recent enough. *)
Lemma heartbeatTick_alive (env : Env) (c : Connector) :
  ackOverdue env c = false ->
  heartbeatTick env c = heartbeat env c.
Proof.
  intros Halive. unfold heartbeatTick.
  rewrite (bind_completed _ _ c c c []) by reflexivity.
  rewrite Halive. cbn [app]. destruct (heartbeat env c); reflexivity.
Qed.

(** The test holds in particular when the last heartbeat has gone
    unanswered for [heartbeatInterval + 5000] ms. *)
Lemma overdue_when_unanswered (env : Env) (c : Connector) :
  lastACKAt c < lastHeartbeatSend c ->
  lastHeartbeatSend c + (heartbeatInterval c + 5000) <= now env ->
  ackOverdue env c = true.
Proof. intros Hack Hwindow. unfold ackOverdue. apply Z.leb_le. lia. Qed.

(** C1, as the code has it.  At a heartbeat tick for which the last
    acknowledgement is at least [heartbeatInterval + 5000] ms old, a
    connector with automatic reconnection marks a pending resume and closes
    the transport with code 4000; once that close has settled it connects
    again, the session identifier and the sequence being kept.  The timer
    whose handle is stored is cancelled exactly once on the way: by the
    resumed [_reconnect], or by the close handler when the close
    notification comes first.  Without automatic reconnection the tick sets
    the closing flag and closes with code 1000, and the stored timer is
    cancelled, once, when that close is notified.  When no handle is
    stored nothing is cancelled, and no timer other than the stored one is
    ever taken off the schedule: the tick of a timer that an earlier hello
    left behind does not cancel that timer. *)
Theorem missed_ack_resumes_or_stops
    (resolve : Z -> Z) (env env1 env2 : Env) (c : Connector)
    (reason : string) :
  ackOverdue env c = true ->
  if opt_reconnect (options c) then
    log (heartbeatTick env c) =
      ClientDebug (DbgNoAck (id c) (heartbeatInterval c + 5000))
      :: reconnectLog env true /\
    st (heartbeatTick env c) =
      set_suspended (suspended c ++ [true]) (set_reconnecting true c) /\
    run resolve [(env2, EvSettled (length (suspended c)))]
        (st (heartbeatTick env c)) =
      (set__closing false (heartStopped (set_reconnecting true c)),
       match heartbeatTimeout c with
       | Some h => [ClearInterval h; ClientDebug (DbgConnecting (id c)); WsConnect]
       | None => [ClientDebug (DbgConnecting (id c)); WsConnect]
       end) /\
    run resolve [(env1, EvClose 4000 reason);
                 (env2, EvSettled (length (suspended c)))]
        (st (heartbeatTick env c)) =
      (heartStopped (set_status disconnected
                       (set__closing false (set_reconnecting true c))),
       match heartbeatTimeout c with
       | Some h =>
         [EmitStateChange disconnected; ClearInterval h;
          EmitDisconnect 4000 reason true;
          ClientDebug (DbgConnecting (id c)); WsConnect]
       | None =>
         [EmitStateChange disconnected;
          EmitDisconnect 4000 reason true;
          ClientDebug (DbgConnecting (id c)); WsConnect]
       end) /\
    count isClearInterval
      (log (heartbeatTick env c)
       ++ snd (run resolve [(env2, EvSettled (length (suspended c)))]
                 (st (heartbeatTick env c)))) =
      (match heartbeatTimeout c with Some _ => 1 | None => 0 end)%nat /\
    count isClearInterval
      (log (heartbeatTick env c)
       ++ snd (run resolve [(env1, EvClose 4000 reason);
                            (env2, EvSettled (length (suspended c)))]
                 (st (heartbeatTick env c)))) =
      (match heartbeatTimeout c with Some _ => 1 | None => 0 end)%nat /\
    timers (heartStopped (set_reconnecting true c)) =
      match heartbeatTimeout c with
      | Some h => filter (fun x => x <> h) (timers c)
      | None => timers c
      end /\
    sessionId (heartStopped (set_reconnecting true c)) = sessionId c /\
    seq (heartStopped (set_reconnecting true c)) = seq c
  else
    log (heartbeatTick env c) =
      [ClientDebug (DbgNoAck (id c) (heartbeatInterval c + 5000));
       WsClose 1000 "Disconnected by User"] /\
    st (heartbeatTick env c) = set__closing true c /\
    count isClearInterval (log (heartbeatTick env c)) = 0%nat /\
    log (handleWsClose 1000 reason (st (heartbeatTick env c))) =
      match heartbeatTimeout c with
      | Some h =>
        [EmitStateChange disconnected; ClearInterval h;
         EmitDisconnect 1000 reason true]
      | None =>
        [EmitStateChange disconnected; EmitDisconnect 1000 reason true]
      end /\
    timers (st (handleWsClose 1000 reason (st (heartbeatTick env c)))) =
      match heartbeatTimeout c with
      | Some h => filter (fun x => x <> h) (timers c)
      | None => timers c
      end.
Proof.
  intros Hover. rewrite (heartbeatTick_overdue env c Hover).
  destruct c as [? opts [h|] ? ? ? ? ? ? ? ? ? ? ? ? susp ?];
    cbn [options suspended id heartbeatInterval heartbeatTimeout];
    (destruct (opt_reconnect opts); cbn [st log];
     [ split; [reflexivity|]; split; [reflexivity|];
       cbn [run];
       rewrite (settled_new resolve env2 _ susp true) by reflexivity;
       split; [reflexivity|];
       change (step resolve env1 (EvClose 4000 reason))
         with (handleWsClose 4000 reason);
       rewrite close_4000_eq; cbn [reconnecting set_suspended st log];
       rewrite (settled_new resolve env2 _ susp true) by reflexivity;
       unfold reconnectLog;
       destruct (wsStatus env =? 2); repeat split; reflexivity
     | rewrite close_1000_eq; repeat split; reflexivity ]).
Qed.

(** An instance: the close notification comes before the close settles. *)
Lemma missed_ack_resumes_or_stops_witness :
  ackOverdue Sample.late (Sample.established true false) = true /\
  snd (run Sample.resolve
         [(Sample.env0, EvClose 4000 "reconnecting"); (Sample.env0, EvSettled 0)]
         (st (heartbeatTick Sample.late (Sample.established true false)))) =
    [EmitStateChange disconnected; ClearInterval 0;
     EmitDisconnect 4000 "reconnecting" true;
     ClientDebug (DbgConnecting 0); WsConnect].
Proof.
  split; [reflexivity|].
  destruct (missed_ack_resumes_or_stops Sample.resolve Sample.late Sample.env0
              Sample.env0 (Sample.established true false) "reconnecting"
              eq_refl) as (_ & _ & _ & H & _).
  exact (f_equal snd H).
Defined.

(** A timer left behind.  Two hellos on one connection schedule timers 0
    and 1 and keep the handle of the second only.  The overdue tick of
    timer 1 cancels timer 1; timer 0 still fires, and its overdue tick,
    with no handle stored any more, closes and connects again without
    cancelling anything: timer 0 stays on the schedule. *)
Lemma orphan_timer_is_not_cancelled :
  let start :=
    fst (run Sample.resolve
           [(Sample.env0, CallConnect); (Sample.env0, EvOpen);
            (Sample.env0, EvMessage Sample.helloMsg);
            (Sample.env0, EvMessage Sample.helloMsg);
            (Sample.late, EvTick 1); (Sample.late, EvSettled 0)]
           (init 0 (Sample.opts true) [])) in
  timers start = [0%nat] /\
  heartbeatTimeout start = None /\
  ackOverdue Sample.late start = true /\
  snd (run Sample.resolve
         [(Sample.late, EvTick 0); (Sample.late, EvSettled 0)] start) =
    [ClientDebug (DbgNoAck 0 5000); WsClose 4000 "reconnecting";
     ClientDebug (DbgConnecting 0); WsConnect] /\
  timers (fst (run Sample.resolve
                 [(Sample.late, EvTick 0); (Sample.late, EvSettled 0)] start))
    = [0%nat].
Proof. vm_compute. repeat split; reflexivity. Qed.

(** C1 as stated fails.  The last heartbeat went out at 60000 and nothing
    has been acknowledged since; at the tick of 110000, more than 45000 ms
    later, the connector closes and connects again, and once it has done
    so its session identifier and its sequence are still there. *)
Lemma missed_ack_no_hard_reset :
  lastACKAt (Sample.established true false)
    < lastHeartbeatSend (Sample.established true false) /\
  lastHeartbeatSend (Sample.established true false)
    + (heartbeatInterval (Sample.established true false) + 5000)
    <= now Sample.late /\
  opt_reconnect (options (Sample.established true false)) = true /\
  snd (run Sample.resolve
         [(Sample.late, EvTick 0); (Sample.late, EvSettled 0)]
         (Sample.established true false)) =
    [ClientDebug (DbgNoAck 0 45000); WsClose 4000 "reconnecting";
     ClearInterval 0; ClientDebug (DbgConnecting 0); WsConnect] /\
  ~ (sessionId
       (fst (run Sample.resolve
               [(Sample.late, EvTick 0); (Sample.late, EvSettled 0)]
               (Sample.established true false))) = None /\
     seq
       (fst (run Sample.resolve
               [(Sample.late, EvTick 0); (Sample.late, EvSettled 0)]
               (Sample.established true false))) = 0).
Proof.
  split; [reflexivity|]. split; [discriminate|].
  split; [reflexivity|]. split; [reflexivity|].
  vm_compute. intros [Hsession _]. discriminate Hsession.
Qed.

(** ** Every close code *)

(** Decide the tests on a value known to differ from the constants. *)
Ltac refute_tests :=
  repeat match goal with
  | H : ?x <> ?k |- context [?x =? ?k] =>
    rewrite (proj2 (Z.eqb_neq x k) H)
  end.

Lemma close_code_cases (code : Z) :
  (code = 4014 \/ code = 4013 \/ code = 4012 \/ code = 4011 \/ code = 4010 \/
   code = 4009 \/ code = 4008 \/ code = 4007 \/ code = 4005 \/ code = 4004 \/
   code = 4003 \/ code = 4002 \/ code = 4001 \/ code = 4000 \/ code = 1000) \/
  (code <> 4014 /\ code <> 4013 /\ code <> 4012 /\ code <> 4011 /\
   code <> 4010 /\ code <> 4009 /\ code <> 4008 /\ code <> 4007 /\
   code <> 4005 /\ code <> 4004 /\ code <> 4003 /\ code <> 4002 /\
   code <> 4001 /\ code <> 4000 /\ code <> 1000).
Proof. lia. Qed.

(** A close code outside the table is only reported. *)
Lemma close_other_eq (code : Z) (reason : string) (c : Connector) :
  code <> 4014 /\ code <> 4013 /\ code <> 4012 /\ code <> 4011 /\
  code <> 4010 /\ code <> 4009 /\ code <> 4008 /\ code <> 4007 /\
  code <> 4005 /\ code <> 4004 /\ code <> 4003 /\ code <> 4002 /\
  code <> 4001 /\ code <> 4000 /\ code <> 1000 ->
  handleWsClose code reason c =
  mkRes (Some tt) (set__closing false (set_status disconnected c))
        [EmitStateChange disconnected; EmitDisconnect code reason false].
Proof.
  intros (? & ? & ? & ? & ? & ? & ? & ? & ? & ? & ? & ? & ? & ? & ?).
  unfold handleWsClose, preserveAndConnect. refute_tests.
  destruct c; reflexivity.
Qed.

(** Whatever the code, a close leaves the connector disconnected with the
    closing flag cleared; it forgets the session identifier for code 4007
    only, and suspends or resumes nothing. *)
Lemma handleWsClose_summary (code : Z) (reason : string) (c : Connector) :
  val (handleWsClose code reason c) = Some tt /\
  status (st (handleWsClose code reason c)) = disconnected /\
  _closing (st (handleWsClose code reason c)) = false /\
  suspended (st (handleWsClose code reason c)) = suspended c /\
  sessionId (st (handleWsClose code reason c)) =
    if code =? 4007 then None else sessionId c.
Proof.
  destruct (close_code_cases code) as [Hcode|Hother].
  - destruct c as [? ? [h|] ? ? ? ? ? ? ? ? [|] [|] ? ? ? ?];
      repeat (destruct Hcode as [->|Hcode]); try subst code;
      vm_compute; repeat split; reflexivity.
  - rewrite (close_other_eq code reason c Hother).
    destruct Hother as (_ & _ & _ & _ & _ & _ & _ & H7 & _).
    rewrite (proj2 (Z.eqb_neq code 4007) H7).
    destruct c; repeat split; reflexivity.
Qed.

(** ** What the operations leave alone *)

Section Frame.

Context {X : Type} (f : Connector -> X).

Lemma preserves_ret {A : Type} (a : A) : preserves f (ret a).
Proof. intros c. reflexivity. Qed.

Lemma preserves_throw {A : Type} : preserves f (@throw A).
Proof. intros c. reflexivity. Qed.

Lemma preserves_get : preserves f get.
Proof. intros c. reflexivity. Qed.

Lemma preserves_tell (e : Effect) : preserves f (tell e).
Proof. intros c. reflexivity. Qed.

Lemma preserves_modify (g : Connector -> Connector) :
  (forall c, f (g c) = f c) -> preserves f (modify g).
Proof. intros Hg c. apply Hg. Qed.

Lemma preserves_bind {A B : Type} (m : Act A) (k : A -> Act B) :
  preserves f m -> (forall a, preserves f (k a)) -> preserves f (bind m k).
Proof.
  intros Hm Hk c. unfold bind.
  destruct (val (m c)) as [a|]; cbn [st]; [rewrite Hk|]; apply Hm.
Qed.

Lemma preserves_when (b : bool) (m : Act unit) :
  preserves f m -> preserves f (when b m).
Proof. intros Hm. destruct b; [exact Hm | apply preserves_ret]. Qed.

End Frame.

Create HintDb frame.
#[local] Hint Resolve preserves_ret preserves_throw preserves_get
  preserves_tell preserves_bind preserves_when : frame.
#[local] Hint Extern 1 (preserves _ (modify _)) =>
  apply preserves_modify; intros []; reflexivity : frame.
#[local] Hint Extern 1 (preserves _ (debug _)) =>
  apply preserves_tell : frame.
#[local] Hint Extern 2 (preserves _ (if ?b then _ else _)) =>
  destruct b : frame.
#[local] Hint Extern 2 (preserves _ (match ?o with Some _ => _ | None => _ end)) =>
  destruct o : frame.

(** Presence normalisation touches the presence data and the activity
    objects only. *)
Lemma checkPresenceData_preserves {X : Type} (f : Connector -> X) (env : Env)
    (place : Presence -> Connector -> Connector) (data : Presence) :
  (forall p c, f (place p c) = f c) ->
  (forall h c, f (set_heap h c) = f c) ->
  preserves f (_checkPresenceData env place data).
Proof.
  intros Hplace Hheap. unfold _checkPresenceData.
  apply preserves_bind; [apply preserves_modify, Hplace|]. intros _.
  apply preserves_bind; [apply preserves_modify, Hplace|]. intros _.
  apply preserves_bind; [apply preserves_get|]. intros c.
  destruct (activitiesLoop _ _ _ _) as [[outcome arr'] h'].
  apply preserves_bind; [apply preserves_modify, Hheap|]. intros _.
  apply preserves_bind; [apply preserves_modify, Hplace|]. intros _.
  destruct outcome; auto with frame.
  apply preserves_bind; [apply preserves_modify, Hplace|]. intros _.
  apply preserves_ret.
Qed.

Lemma resume_preserves (env : Env) : preserves sessionCore (resume env).
Proof. unfold resume. auto 12 with frame. Qed.

Lemma identify_preserves (resolve : Z -> Z) (env : Env) (force : option bool) :
  preserves sessionCore (identify env resolve force).
Proof.
  unfold identify.
  apply preserves_bind; [auto with frame|]. intros _.
  apply preserves_bind; [auto with frame|]. intros c.
  destruct (_ && _); [apply resume_preserves|].
  apply preserves_bind; [auto with frame|]. intros _.
  apply preserves_bind; [auto with frame|]. intros _.
  apply preserves_bind; [auto with frame|]. intros _.
  apply preserves_bind; [|auto with frame].
  destruct (initialPresence (options c)) as [p|]; [|auto with frame].
  apply preserves_bind; [|auto with frame].
  apply checkPresenceData_preserves; intros ? []; reflexivity.
Qed.

(** [identify] moves to resuming or identifying and touches neither the
    session identifier, nor the closing flag, nor the suspended calls. *)
Lemma identify_frame (resolve : Z -> Z) (env : Env) (force : option bool)
    (c : Connector) :
  status (st (identify env resolve force c)) =
    (if JS.truthyOpt JS.truthyStr (sessionId c)
        && negb (JS.truthyOpt (fun b : bool => b) force)
     then resuming else identifying) /\
  sessionId (st (identify env resolve force c)) = sessionId c /\
  _closing (st (identify env resolve force c)) = _closing c /\
  suspended (st (identify env resolve force c)) = suspended c.
Proof.
  split.
  - unfold identify.
    assert (Hwhen : forall b txt c0,
              when b (debug txt) c0
              = mkRes (Some tt) c0 (if b then [ClientDebug txt] else []))
      by (intros [|] ? ?; reflexivity).
    rewrite (bind_completed _ _ c c tt _ (Hwhen _ _ c)).
    rewrite (bind_completed _ _ c c c []) by reflexivity.
    cbn [st]. destruct (_ && _).
    + unfold resume.
      rewrite (bind_completed _ _ c c tt _ (Hwhen _ _ c)).
      destruct c; reflexivity.
    + rewrite (bind_completed _ _ c c tt [ClientDebug (DbgIdentifying (id c))])
        by reflexivity.
      rewrite (bind_completed _ _ c (set_status identifying c) tt [])
        by reflexivity.
      rewrite (bind_completed _ _ (set_status identifying c)
                 (set_status identifying c) tt [EmitStateChange identifying])
        by reflexivity.
      cbn [st].
      assert (Hrest : forall A B (m : Act A) (k : A -> Act B),
                preserves status m -> (forall a, preserves status (k a)) ->
                status (st (bind m k (set_status identifying c))) = identifying).
      { intros A B m k Hm Hk. rewrite (preserves_bind status m k Hm Hk).
        destruct c; reflexivity. }
      apply Hrest; [|auto with frame].
      destruct (initialPresence (options c)) as [p|]; [|auto with frame].
      apply preserves_bind; [|auto with frame].
      apply checkPresenceData_preserves; intros ? []; reflexivity.
  - pose proof (identify_preserves resolve env force c) as Hcore.
    unfold sessionCore in Hcore. injection Hcore as Hs Hc Hsusp.
    repeat split; assumption.
Qed.

Lemma presenceUpdate_frame (env : Env) (data : Presence) (c : Connector) :
  status (st (presenceUpdate env data c)) = status c /\
  sessionId (st (presenceUpdate env data c)) = sessionId c /\
  _closing (st (presenceUpdate env data c)) = _closing c /\
  suspended (st (presenceUpdate env data c)) = suspended c.
Proof.
  assert (Hkeep : forall X (f : Connector -> X),
            (forall h c0, f (set_heap h c0) = f c0) ->
            preserves f (presenceUpdate env data)).
  { intros X f Hheap. unfold presenceUpdate.
    apply preserves_bind; [|auto with frame].
    apply checkPresenceData_preserves; [reflexivity | exact Hheap]. }
  repeat split; apply Hkeep; intros ? []; reflexivity.
Qed.

(** The opcode switch sets the closing flag only by the [disconnect] of a
    reconnect request, and suspends only the [_reconnect] of one. *)
Lemma route_frame (env : Env) (m : Message) (c : Connector) :
  _closing (st (route env m c)) =
    (if (op m =? OP.RECONNECT) && negb (opt_reconnect (options c))
     then true else _closing c) /\
  suspended (st (route env m c)) =
    (if (op m =? OP.RECONNECT) && opt_reconnect (options c)
     then suspended c ++ [true] else suspended c).
Proof.
  route_cases env m; cbn [andb negb].
  - unfold handleDispatch, isSessionEvent, readD.
    destruct m as [o [v|] ss [n|]]; cbn [t d JS.truthyOpt];
      try destruct (String.eqb n "READY"); try destruct (String.eqb n "RESUMED");
      destruct c; split; reflexivity.
  - unfold heartbeat. destruct (wsStatus env =? 1), c; split; reflexivity.
  - rewrite onReconnect_eq. destruct c, (opt_reconnect _); split; reflexivity.
  - rewrite onInvalidSession_eq. destruct (resumable m c), c; split; reflexivity.
  - unfold onHello, heartbeat, readD.
    destruct (d m), (wsStatus env =? 1), c; split; reflexivity.
  - destruct c; split; reflexivity.
  - destruct c; split; reflexivity.
Qed.



Lemma heartbeat_frame (env : Env) (c : Connector) :
  status (st (heartbeat env c)) = status c /\
  sessionId (st (heartbeat env c)) = sessionId c /\
  _closing (st (heartbeat env c)) = _closing c /\
  suspended (st (heartbeat env c)) = suspended c.
Proof.
  unfold heartbeat. destruct (wsStatus env =? 1), c; repeat split; reflexivity.
Qed.

Lemma reconnect_resumed_frame (c : Connector) :
  status (st (_reconnect_resumed true c)) = status c /\
  sessionId (st (_reconnect_resumed true c)) = sessionId c /\
  _closing (st (_reconnect_resumed true c)) = false /\
  suspended (st (_reconnect_resumed true c)) = suspended c.
Proof.
  destruct c as [? ? [h|] ? ? ? ? ? ? ? ? ? ? ? ? ? ?]; repeat split; reflexivity.
Qed.

Lemma reconnect_reset_frame (c : Connector) :
  _closing (st (_reconnect_resumed false c)) = false.
Proof.
  destruct c as [? ? [h|] ? ? ? ? ? ? ? ? ? ? ? ? ? ?]; reflexivity.
Qed.


Lemma forallb_lookup {A : Type} (f : A -> bool) (n : nat) (l : list A) (x : A) :
  forallb f l = true -> l !! n = Some x -> f x = true.
Proof.
  revert n. induction l as [|y l IH]; intros n Hall Hn; [destruct n; discriminate|].
  cbn in Hall. apply andb_true_iff in Hall as [Hy Hl].
  destruct n as [|n]; cbn in Hn.
  - injection Hn as <-. exact Hy.
  - exact (IH n Hl Hn).
Qed.

(** ** The closing flag along a run *)

(** An event that does not call [disconnect] does not set the flag. *)
Lemma step_closing (resolve : Z -> Z) (env : Env) (e : Event) (c : Connector) :
  _closing c = false ->
  callsDisconnect env e c = false ->
  _closing (st (step resolve env e c)) = false.
Proof.
  intros Hc Hcall. destruct e as [|m|code reason|h|n| | |force|data|data|data];
    cbn [step callsDisconnect] in *.
  - destruct c; exact Hc.
  - rewrite messageAction_eq. cbn [st].
    destruct (route_frame env m (tracked m c)) as [-> _].
    destruct (tracked_frame m c) as (_ & -> & _ & _ & _ & _ & _ & -> & _).
    rewrite Hcall. exact Hc.
  - apply handleWsClose_summary.
  - destruct (bool_decide (h ∈ timers c)); [|exact Hc].
    destruct (ackOverdue env c) eqn:Hover.
    + rewrite (heartbeatTick_overdue env c Hover).
      cbn [andb] in Hcall. apply negb_false_iff in Hcall. rewrite Hcall.
      destruct c; exact Hc.
    + rewrite (heartbeatTick_alive env c Hover).
      destruct (heartbeat_frame env c) as (_ & _ & -> & _). exact Hc.
  - destruct (suspended c !! n) as [r|]; [|exact Hc].
    rewrite (bind_completed _ _ c (set_suspended (delete n (suspended c)) c) tt [])
      by reflexivity.
    cbn [st]. destruct r.
    + apply reconnect_resumed_frame.
    + apply reconnect_reset_frame.
  - reflexivity.
  - discriminate Hcall.
  - destruct (identify_frame resolve env force c) as (_ & _ & -> & _). exact Hc.
  - destruct (presenceUpdate_frame env data c) as (_ & _ & -> & _). exact Hc.
  - destruct data; exact Hc.
  - exact Hc.
Qed.

Lemma run_app (resolve : Z -> Z) (l1 l2 : list (Env * Event)) (c : Connector) :
  run resolve (l1 ++ l2) c =
  (fst (run resolve l2 (fst (run resolve l1 c))),
   snd (run resolve l1 c) ++ snd (run resolve l2 (fst (run resolve l1 c)))).
Proof.
  revert c. induction l1 as [|[env e] l1 IH]; intros c; cbn [run app].
  - cbn [fst snd app]. destruct (run resolve l2 c); reflexivity.
  - rewrite IH. destruct (run resolve l1 (st (step resolve env e c))).
    cbn [fst snd]. rewrite app_assoc. reflexivity.
Qed.

Lemma run_closing (resolve : Z -> Z) (evs : list (Env * Event)) (c : Connector) :
  _closing c = false ->
  noDisconnect resolve evs c = true ->
  _closing (fst (run resolve evs c)) = false.
Proof.
  revert c. induction evs as [|[env e] evs IH]; intros c Hc Hquiet; [exact Hc|].
  cbn [noDisconnect] in Hquiet. apply andb_true_iff in Hquiet as [He Hrest].
  apply negb_true_iff in He.
  cbn [run]. destruct (run resolve evs (st (step resolve env e c))) eqn:Hrun.
  cbn [fst]. change c0 with (fst (c0, l)). rewrite <- Hrun.
  apply IH; [|exact Hrest]. apply step_closing; assumption.
Qed.

(** C10, as the code has it: [connect] clears the closing flag, whatever
    it was, and then asks the transport to connect.  So when [connect] is
    called after [disconnect], and nothing calls [disconnect] again before
    the close with code 1000 is handled (neither the consumer, nor a
    reconnect request or an overdue heartbeat tick of a connector without
    automatic reconnection), that close is classified and reported as not
    graceful. *)
Theorem connect_after_disconnect_close_not_graceful
    (resolve : Z -> Z) (envd envc : Env) (before between : list (Env * Event))
    (c : Connector) (reason : string) :
  noDisconnect resolve between
    (fst (run resolve ((envd, CallDisconnect) :: before ++ [(envc, CallConnect)]) c))
  = true ->
  (forall c0, st (connect c0) = set__closing false c0 /\
              log (connect c0) = [ClientDebug (DbgConnecting (id c0)); WsConnect]) /\
  _closing (st (disconnect c)) = true /\
  _closing
    (fst (run resolve ((envd, CallDisconnect) :: before ++ [(envc, CallConnect)]) c))
  = false /\
  log (handleWsClose 1000 reason
         (fst (run resolve between
                 (fst (run resolve
                         ((envd, CallDisconnect) :: before ++ [(envc, CallConnect)])
                         c))))) =
    [EmitStateChange disconnected; EmitDisconnect 1000 reason false].
Proof.
  intros Hquiet.
  assert (Hconn : _closing
            (fst (run resolve
                    ((envd, CallDisconnect) :: before ++ [(envc, CallConnect)]) c))
          = false).
  { change ((envd, CallDisconnect) :: before ++ [(envc, CallConnect)])
      with (((envd, CallDisconnect) :: before) ++ [(envc, CallConnect)]).
    rewrite run_app. cbn [fst run step]. reflexivity. }
  split; [intros c0; split; reflexivity|].
  split; [reflexivity|]. split; [exact Hconn|].
  rewrite close_1000_eq.
  rewrite (run_closing resolve between _ Hconn Hquiet). reflexivity.
Qed.

(** An instance: disconnect, connect, open and hello, then the close. *)
Lemma connect_after_disconnect_close_not_graceful_witness :
  noDisconnect Sample.resolve
    [(Sample.env0, EvOpen); (Sample.env0, EvMessage Sample.helloMsg)]
    (fst (run Sample.resolve
            ((Sample.env0, CallDisconnect) :: [] ++ [(Sample.env0, CallConnect)])
            (Sample.established true false))) = true /\
  log (handleWsClose 1000 "Disconnected by User"
         (fst (run Sample.resolve
                 [(Sample.env0, EvOpen); (Sample.env0, EvMessage Sample.helloMsg)]
                 (fst (run Sample.resolve
                         ((Sample.env0, CallDisconnect) :: []
                          ++ [(Sample.env0, CallConnect)])
                         (Sample.established true false)))))) =
    [EmitStateChange disconnected;
     EmitDisconnect 1000 "Disconnected by User" false].
Proof.
  split; [reflexivity|].
  destruct (connect_after_disconnect_close_not_graceful Sample.resolve
              Sample.env0 Sample.env0 []
              [(Sample.env0, EvOpen); (Sample.env0, EvMessage Sample.helloMsg)]
              (Sample.established true false) "Disconnected by User" eq_refl)
    as (_ & _ & _ & H).
  exact H.
Defined.

(** C10 as stated fails.  A connector without automatic reconnection is
    disconnected and connected again; before the close with code 1000 is
    handled, a reconnect request arrives, or a heartbeat tick finds the
    acknowledgement overdue.  Either makes the connector call [disconnect]
    itself, which sets the closing flag again, and the close is reported as
    graceful. *)
Lemma connect_after_disconnect_close_may_be_graceful :
  opt_reconnect (options (Sample.established false false)) = false /\
  _closing
    (fst (run Sample.resolve
            [(Sample.env0, CallDisconnect); (Sample.env0, CallConnect)]
            (Sample.established false false))) = false /\
  snd (run Sample.resolve
         [(Sample.env0, CallDisconnect); (Sample.env0, CallConnect);
          (Sample.env0, EvMessage Sample.reconnectMsg);
          (Sample.env0, EvClose 1000 "Disconnected by User")]
         (Sample.established false false)) =
    [WsClose 1000 "Disconnected by User";
     ClientDebug (DbgConnecting 0); WsConnect;
     ClientRawReceive Sample.reconnectMsg;
     ClientDebug (DbgAskedToReconnect 0);
     WsClose 1000 "Disconnected by User";
     EmitStateChange disconnected; ClearInterval 0;
     EmitDisconnect 1000 "Disconnected by User" true] /\
  snd (run Sample.resolve
         [(Sample.env0, CallDisconnect); (Sample.env0, CallConnect);
          (Sample.late, EvTick 0);
          (Sample.late, EvClose 1000 "Disconnected by User")]
         (Sample.established false false)) =
    [WsClose 1000 "Disconnected by User";
     ClientDebug (DbgConnecting 0); WsConnect;
     ClientDebug (DbgNoAck 0 45000);
     WsClose 1000 "Disconnected by User";
     EmitStateChange disconnected; ClearInterval 0;
     EmitDisconnect 1000 "Disconnected by User" true].
Proof. repeat split; reflexivity. Qed.

(** ** Ready implies a session identifier *)







(** ** Presence normalisation *)

Lemma splice1_length (index : option nat) (arr : list nat) :
  (length (splice1 index arr) <= length arr)%nat.
Proof.
  destruct index as [i|]; cbn [splice1].
  - revert i. induction arr as [|x arr IH]; intros [|i]; cbn.
    + lia.
    + lia.
    + lia.
    + apply le_n_S, IH.
  - induction arr as [|x arr IH]; [cbn; lia|].
    destruct arr as [|y arr]; [cbn; lia|].
    change (removelast (x :: y :: arr)) with (x :: removelast (y :: arr)).
    cbn [length] in *. lia.
Qed.

(** The loop over the activities ends: the fuel it is given, the length of
    the array, is never used up. *)
Lemma activitiesLoop_total (fuel i : nat) (arr : list nat) (h : list Activity) :
  (length arr - i <= fuel)%nat ->
  fst (fst (activitiesLoop fuel i arr h)) <> OutOfFuel.
Proof.
  revert i arr h. induction fuel as [|fuel IH]; intros i arr h Hfuel;
    cbn [activitiesLoop]; destruct (arr !! i) as [r|] eqn:Hr;
    try (cbn; discriminate).
  - apply lookup_lt_Some in Hr. lia.
  - apply lookup_lt_Some in Hr.
    destruct (h !! r) as [a|]; [|cbn; discriminate].
    apply IH.
    destruct (negb _); [|lia].
    pose proof (splice1_length (indexOf arr r) arr). lia.
Qed.

Lemma activitiesLoop_from_start (arr : list nat) (h : list Activity) :
  fst (fst (activitiesLoop (length arr) 0 arr h)) <> OutOfFuel.
Proof. apply activitiesLoop_total. lia. Qed.

Lemma defaultType_name (a : Activity) : name (defaultType a) = name a.
Proof. unfold defaultType. destruct a as [n [ty|] u]; reflexivity. Qed.

Lemma defaultType_again (a : Activity) :
  defaultType (defaultType a) = defaultType a.
Proof. unfold defaultType. destruct a as [n [ty|] u]; reflexivity. Qed.

(** What the loop gets right: when every activity of the array has a
    name, the array is kept as it is and every activity in it that had no
    type is given 1 or 0 by its URL; no other object is touched. *)
Lemma activitiesLoop_all_named (fuel i : nat) (arr : list nat) (h : list Activity) :
  (length arr - i <= fuel)%nat ->
  (forall r, r ∈ arr ->
     exists a, h !! r = Some a /\ JS.truthyOpt JS.truthyStr (name a) = true) ->
  exists h',
    activitiesLoop fuel i arr h = (Completed, arr, h') /\
    (forall r a, h !! r = Some a ->
       h' !! r = Some a \/ h' !! r = Some (defaultType a)) /\
    (forall j r a, (i <= j)%nat -> arr !! j = Some r -> h !! r = Some a ->
       h' !! r = Some (defaultType a)).
Proof.
  revert i h. induction fuel as [|fuel IH]; intros i h Hfuel Hnamed;
    cbn [activitiesLoop]; destruct (arr !! i) as [r|] eqn:Hr.
  - apply lookup_lt_Some in Hr. lia.
  - exists h. split; [reflexivity|]. split; [intros; left; assumption|].
    intros j r a Hj Hjr _. apply lookup_ge_None in Hr.
    apply lookup_lt_Some in Hjr. lia.
  - destruct (Hnamed r) as (a & Ha & Hname);
      [apply list_elem_of_lookup; exists i; exact Hr|].
    rewrite Ha. rewrite defaultType_name, Hname. cbn [negb].
    assert (Hlt : (r < length h)%nat) by (apply lookup_lt_Some in Ha; exact Ha).
    destruct (IH (S i) (<[r := defaultType a]> h)) as (h' & Hloop & Hany & Hfrom).
    + apply lookup_lt_Some in Hr. lia.
    + intros r' Hr'. destruct (decide (r' = r)) as [->|Hne].
      * exists (defaultType a). rewrite list_lookup_insert_eq by exact Hlt.
        rewrite defaultType_name. split; [reflexivity | exact Hname].
      * rewrite list_lookup_insert_ne by congruence. apply Hnamed, Hr'.
    + exists h'. split; [exact Hloop|].
      assert (Hr_done : h' !! r = Some (defaultType a)).
      { destruct (Hany r (defaultType a)) as [H|H];
          [apply list_lookup_insert_eq, Hlt | exact H |].
        rewrite defaultType_again in H. exact H. }
      assert (Hother : forall r0 a0, r0 <> r -> h !! r0 = Some a0 ->
                <[r := defaultType a]> h !! r0 = Some a0).
      { intros r0 a0 Hne Ha0. rewrite list_lookup_insert_ne by congruence.
        exact Ha0. }
      split.
      * intros r0 a0 Ha0. destruct (decide (r0 = r)) as [->|Hne].
        -- right. rewrite Ha in Ha0. injection Ha0 as <-. exact Hr_done.
        -- apply Hany, Hother; assumption.
      * intros j r0 a0 Hj Hjr Ha0. destruct (decide (r0 = r)) as [->|Hne].
        -- rewrite Ha in Ha0. injection Ha0 as <-. exact Hr_done.
        -- assert (Hj' : (S i <= j)%nat).
           { destruct (decide (j = i)) as [->|]; [congruence | lia]. }
           exact (Hfrom j r0 a0 Hj' Hjr (Hother r0 a0 Hne Ha0)).
  - exists h. split; [reflexivity|]. split; [intros; left; assumption|].
    intros j r a Hj Hjr _. apply lookup_ge_None in Hr.
    apply lookup_lt_Some in Hjr. lia.
Qed.

(** So a presence whose activities all have a name goes out whole, with
    the missing types filled in. *)
Lemma presenceUpdate_all_named (env : Env) (data : Presence) (c : Connector)
    (arr : list nat) :
  activities data = Some arr ->
  (forall r, r ∈ arr ->
     exists a, heap c !! r = Some a /\ JS.truthyOpt JS.truthyStr (name a) = true) ->
  exists sent,
    log (presenceUpdate env data c) =
      [WsSend (OutPresenceUpdate
         {| o_status := Some (JS.orElse JS.truthyStr (p_status data) "online");
            o_activities := sent;
            o_afk := Some (JS.orElse (fun b : bool => b) (afk data) false);
            o_since := Some (JS.orElse JS.truthyNum (since data) (now env)) |})] /\
    length sent = length arr /\
    (forall j r a, arr !! j = Some r -> heap c !! r = Some a ->
       sent !! j = Some (Some (defaultType a))).
Proof.
  intros Harr Hnamed.
  destruct (activitiesLoop_all_named (length arr) 0 arr (heap c))
    as (h' & Hloop & _ & Hfrom); [lia | exact Hnamed |].
  exists ((fun r => h' !! r) <$> arr). split; [|split].
  - destruct env as [nw ws], data as [sts acts af sn], c.
    cbn [activities heap] in *. subst acts.
    unfold presenceUpdate, _checkPresenceData, atCaller, snapshot.
    cbv -[Z.eqb activitiesLoop length lookup fmap JS.orElse].
    rewrite Hloop. reflexivity.
  - apply length_fmap.
  - intros j r a Hj Ha. rewrite list_lookup_fmap, Hj. cbn.
    f_equal. exact (Hfrom j r a (Nat.le_0_l j) Hj Ha).
Qed.

(** C7 at its failing input: of two activities in a row that have no name,
    the loop removes the first and steps over the second, which is sent
    out, by [presenceUpdate] and by [identify] alike, still without a name
    and, having no type, without one assigned. *)
Theorem nameless_activity_after_nameless_is_sent :
  log (presenceUpdate Sample.env0 Sample.presence
         (init 0 (Sample.opts true) Sample.nameless)) =
    [WsSend (OutPresenceUpdate
       {| o_status := Some "online";
          o_activities :=
            [Some {| name := None; type := None;
                     url := Some "https://twitch.tv/cloudstorm" |}];
          o_afk := Some false;
          o_since := Some 100000 |})] /\
  log (identify Sample.env0 Sample.resolve None
         (init 0 Sample.optsWithPresence Sample.nameless)) =
    [ClientDebug (DbgIdentifying 0); EmitStateChange identifying;
     WsSend (OutIdentify "token" None (0, 1) 0
       (Some {| o_status := Some "online";
                o_activities :=
                  [Some {| name := None; type := None;
                           url := Some "https://twitch.tv/cloudstorm" |}];
                o_afk := Some false;
                o_since := Some 100000 |}))].
Proof. split; reflexivity. Qed.

(** * Further properties *)

(** ** The close-code policy *)

Lemma count_app (p : Effect -> bool) (l1 l2 : list Effect) :
  count p (l1 ++ l2) = (count p l1 + count p l2)%nat.
Proof. unfold count. rewrite List.filter_app, length_app. reflexivity. Qed.

(** Split a goal about [handleWsClose code reason c] by the codes of its
    table, the connector's relevant fields being taken apart. *)
Ltac close_cases code reason c :=
  destruct (close_code_cases code) as [Hcode|Hother];
  [ destruct c as [? ? [?|] ? ? ? ? ? ? ? ? [|] [|] ? ? ? ?];
    repeat (destruct Hcode as [->|Hcode]); try subst code; vm_compute
  | rewrite ?(close_other_eq code reason c Hother);
    destruct Hother as (? & ? & ? & ? & ? & ? & ? & ? & ? & ? & ? & ? & ? & ? & ?);
    destruct c;
    unfold reportsErrorOn, reconnectsOn, gracefulOn; refute_tests ].

(** Every close, whatever its code, is handled to the end: the connector
    is left disconnected with the closing flag cleared, and exactly one
    disconnect notification is emitted, as the last effect, carrying the
    code and the reason it was given. *)
Theorem every_close_ends_disconnected (code : Z) (reason : string) (c : Connector) :
  val (handleWsClose code reason c) = Some tt /\
  status (st (handleWsClose code reason c)) = disconnected /\
  _closing (st (handleWsClose code reason c)) = false /\
  List.hd_error (log (handleWsClose code reason c))
    = Some (EmitStateChange disconnected) /\
  last (log (handleWsClose code reason c))
    = Some (EmitDisconnect code reason (gracefulOn code c)) /\
  count isEmitDisconnect (log (handleWsClose code reason c)) = 1%nat.
Proof.
  close_cases code reason c; repeat split; reflexivity.
Qed.

(** The reconnect policy: [handleWsClose] asks the transport to connect
    again, once, for the codes 4001, 4002, 4003, 4005, 4007, 4008 and 4009
    and for a code 4000 that the connector did not ask for itself; for
    every other code, 1000 and the fatal ones included, it never does. *)
Theorem close_reconnect_policy (code : Z) (reason : string) (c : Connector) :
  count isWsConnect (log (handleWsClose code reason c))
  = (if reconnectsOn code c then 1 else 0)%nat.
Proof.
  close_cases code reason c; reflexivity.
Qed.

(** The error policy: exactly one error notification for each code of
    4001 to 4014 that the table names (4006 is not one) and for a code
    4000 that the connector did not ask for; none otherwise. *)
Theorem close_error_policy (code : Z) (reason : string) (c : Connector) :
  count isClientError (log (handleWsClose code reason c))
  = (if reportsErrorOn code c then 1 else 0)%nat.
Proof.
  close_cases code reason c; reflexivity.
Qed.

(** The heartbeat at a close: the timer is cancelled and forgotten exactly
    when the close leads to a reconnect or is taken for the connector's
    own.  For the fatal codes (4004, 4010 to 4014), for an unasked-for
    1000 and for every code outside the table the timer is left
    scheduled. *)
Theorem close_heartbeat_policy (code : Z) (reason : string) (c : Connector) :
  heartbeatTimeout (st (handleWsClose code reason c)) =
    (if reconnectsOn code c || gracefulOn code c then None
     else heartbeatTimeout c) /\
  timers (st (handleWsClose code reason c)) =
    (if reconnectsOn code c || gracefulOn code c then timers (heartStopped c)
     else timers c) /\
  count isClearInterval (log (handleWsClose code reason c)) =
    (if reconnectsOn code c || gracefulOn code c
     then length (cancelled c) else 0)%nat.
Proof.
  close_cases code reason c; repeat split; reflexivity.
Qed.

(** The session at a close: only code 4007 forgets it.  For every other
    code the session identifier, the sequence and the trace are as they
    were, so that a later identify can resume. *)
Theorem close_keeps_session_unless_4007 (code : Z) (reason : string) (c : Connector) :
  code <> 4007 ->
  sessionId (st (handleWsClose code reason c)) = sessionId c /\
  seq (st (handleWsClose code reason c)) = seq c /\
  _trace (st (handleWsClose code reason c)) = _trace c /\
  lastACKAt (st (handleWsClose code reason c)) = lastACKAt c.
Proof.
  intros H7.
  destruct (close_code_cases code) as [Hcode|Hother].
  - destruct c as [? ? [?|] ? ? ? ? ? ? ? ? [|] [|] ? ? ? ?];
      repeat (destruct Hcode as [->|Hcode]); try subst code;
      try (exfalso; apply H7; reflexivity);
      vm_compute; repeat split; reflexivity.
  - rewrite (close_other_eq code reason c Hother).
    destruct c; repeat split; reflexivity.
Qed.

(** An instance: the session survives a close with code 4009. *)
Lemma close_keeps_session_unless_4007_witness :
  4009 <> 4007 /\
  sessionId (st (handleWsClose 4009 "Session timed out"
                   (Sample.established true false))) = Some "abc".
Proof.
  assert (H : 4009 <> 4007) by discriminate.
  split; [exact H|].
  exact (proj1 (close_keeps_session_unless_4007 4009 "Session timed out"
                  (Sample.established true false) H)).
Defined.

(** A close that is neither recovered from nor taken for the connector's
    own only marks the connector disconnected. *)
Lemma close_unrecovered_state (code : Z) (reason : string) (c : Connector) :
  reconnectsOn code c || gracefulOn code c = false ->
  st (handleWsClose code reason c) = set__closing false (set_status disconnected c).
Proof.
  intros Hleft.
  destruct (close_code_cases code) as [Hcode|Hother].
  - destruct c as [? ? [?|] ? ? ? ? ? ? ? ? [|] [|] ? ? ? ?];
      repeat (destruct Hcode as [->|Hcode]); try subst code;
      try discriminate Hleft; reflexivity.
  - rewrite (close_other_eq code reason c Hother). reflexivity.
Qed.

(** The heartbeat outlives such a close.  After a fatal code, an
    unasked-for 1000 or a code outside the table, the timer still fires,
    and a tick that finds the acknowledgement overdue starts a reconnect
    all the same: it closes the transport with code 4000 and suspends a
    [_reconnect] that will connect again. *)
Theorem unrecovered_close_leaves_heartbeat_running
    (resolve : Z -> Z) (env : Env) (code : Z) (reason : string)
    (c : Connector) (h : nat) :
  reconnectsOn code c || gracefulOn code c = false ->
  bool_decide (h ∈ timers c) = true ->
  ackOverdue env c = true ->
  opt_reconnect (options c) = true ->
  count isWsConnect (log (handleWsClose code reason c)) = 0%nat /\
  log (step resolve env (EvTick h) (st (handleWsClose code reason c))) =
    ClientDebug (DbgNoAck (id c) (heartbeatInterval c + 5000))
    :: reconnectLog env true /\
  suspended (st (step resolve env (EvTick h) (st (handleWsClose code reason c))))
  = suspended c ++ [true].
Proof.
  intros Hleft Hlive Hover Hauto.
  split.
  - apply orb_false_iff in Hleft as [Hre _].
    revert Hre. clear. intros Hre.
    destruct (close_code_cases code) as [Hcode|Hother].
    + destruct c as [? ? [?|] ? ? ? ? ? ? ? ? [|] [|] ? ? ? ?];
        repeat (destruct Hcode as [->|Hcode]); try subst code;
        try discriminate Hre; reflexivity.
    + rewrite (close_other_eq code reason c Hother). reflexivity.
  - rewrite (close_unrecovered_state code reason c Hleft).
    cbn [step].
    assert (Htimers : timers (set__closing false (set_status disconnected c))
                      = timers c) by (destruct c; reflexivity).
    rewrite Htimers, Hlive.
    assert (Hover' : ackOverdue env (set__closing false (set_status disconnected c))
                     = true) by (destruct c; exact Hover).
    rewrite (heartbeatTick_overdue env _ Hover').
    destruct c as [? opts ? ? ? ? ? ? ? ? ? ? ? ? ? ? ?].
    cbn [options set__closing set_status] in *. rewrite Hauto.
    split; reflexivity.
Qed.

(** An instance: the invalid-token close on the sample session. *)
Lemma unrecovered_close_leaves_heartbeat_running_witness :
  reconnectsOn 4004 (Sample.established true false)
  || gracefulOn 4004 (Sample.established true false) = false /\
  bool_decide (0%nat ∈ timers (Sample.established true false)) = true /\
  ackOverdue Sample.late (Sample.established true false) = true /\
  log (step Sample.resolve Sample.late (EvTick 0)
         (st (handleWsClose 4004 "Authentication failed"
                (Sample.established true false)))) =
    [ClientDebug (DbgNoAck 0 45000); WsClose 4000 "reconnecting"].
Proof.
  split; [reflexivity|]. split; [reflexivity|]. split; [reflexivity|].
  destruct (unrecovered_close_leaves_heartbeat_running Sample.resolve
              Sample.late 4004 "Authentication failed"
              (Sample.established true false) 0%nat
              eq_refl eq_refl eq_refl eq_refl) as (_ & H & _).
  exact H.
Defined.

(** ** Inbound messages: what goes upward *)

Lemma trackLog_no_event (env : Env) (m : Message) (c : Connector) :
  List.filter isEmitEvent (trackLog env m c) = [] /\
  List.filter isEmitReady (trackLog env m c) = [].
Proof.
  unfold trackLog, resumeLog.
  destruct (gap m c), (wsStatus env =? 1); split; reflexivity.
Qed.

Lemma resume_eq (env : Env) (c : Connector) :
  resume env c = mkRes (Some tt) (set_status resuming c) (resumeLog env (seq c) c).
Proof.
  unfold resume, resumeLog.
  destruct env as [nw ws], c. cbn [wsStatus]. destruct (ws =? 1); reflexivity.
Qed.

Lemma when_debug_eq (b : bool) (txt : DebugText) (c : Connector) :
  when b (debug txt) c = mkRes (Some tt) c (if b then [ClientDebug txt] else []).
Proof. destruct b; reflexivity. Qed.

(** [identify] when a session identifier is stored and no fresh session
    is forced. *)
Lemma identify_resume_eq (resolve : Z -> Z) (env : Env) (force : option bool)
    (c : Connector) :
  JS.truthyOpt JS.truthyStr (sessionId c)
  && negb (JS.truthyOpt (fun b : bool => b) force) = true ->
  identify env resolve force c =
  mkRes (Some tt) (set_status resuming c)
        (notOpen env DbgIdentifyNotOpen ++ resumeLog env (seq c) c).
Proof.
  intros Hcond. unfold identify, notOpen.
  rewrite (bind_completed _ _ c c tt _ (when_debug_eq _ _ c)).
  rewrite (bind_completed _ _ c c c []) by reflexivity.
  rewrite Hcond, resume_eq. cbn [val st log app].
  destruct (wsStatus env =? 1); reflexivity.
Qed.

(** [handleDispatch] on a "READY" or a "RESUMED" that has a payload. *)
Lemma handleDispatch_session_eq (m : Message) (c : Connector) (v : DataView) :
  isSessionEvent m = true ->
  d m = Some v ->
  handleDispatch m c =
  mkRes (Some tt)
        (set__trace (d_trace v)
           (set_status ready
              (if isReady m then set_sessionId (session_id v) c else c)))
        [EmitStateChange ready; EmitReady (isResumed m); EmitEvent m].
Proof.
  intros Hev Hd. unfold handleDispatch, readD, isReady, isResumed.
  rewrite Hev, Hd.
  destruct (JS.truthyOpt (fun n => String.eqb n "READY") (t m)), c; reflexivity.
Qed.

(** Forwarding: a dispatch and a message of an opcode the switch does not
    name are handed upward as an [event], once and unchanged; the five
    control opcodes never are.  A "READY" or "RESUMED" whose payload is
    null is the exception among the dispatches: the handler throws before
    it forwards it. *)
Theorem forwarding_policy (env : Env) (m : Message) (c : Connector) :
  List.filter isEmitEvent (log (messageAction env m c))
  = if forwarded m then [EmitEvent m] else [].
Proof.
  rewrite messageAction_eq. cbn [log List.filter isEmitEvent].
  rewrite List.filter_app.
  destruct (trackLog_no_event env m c) as [-> _]. cbn [app].
  unfold forwarded.
  generalize (tracked m c). intros c'.
  route_cases env m; cbn [orb negb].
  - unfold handleDispatch, isSessionEvent, readD.
    destruct m as [o [v|] ss [n|]]; cbn [t d JS.truthyOpt];
      try destruct (String.eqb n "READY"); try destruct (String.eqb n "RESUMED");
      destruct c'; reflexivity.
  - unfold heartbeat. destruct (wsStatus env =? 1), c'; reflexivity.
  - rewrite onReconnect_eq. unfold reconnectLog.
    destruct c', (opt_reconnect _), (wsStatus env =? 2); reflexivity.
  - rewrite onInvalidSession_eq. unfold resumeLog.
    destruct (resumable m c'), c', (wsStatus env =? 1); reflexivity.
  - unfold onHello, heartbeat, readD.
    destruct (d m), (wsStatus env =? 1), c'; reflexivity.
  - destruct c'; reflexivity.
  - repeat match goal with
    | H : op m <> ?k |- context [op m =? ?k] =>
      rewrite (proj2 (Z.eqb_neq (op m) k) H)
    end.
    destruct c'; reflexivity.
Qed.

(** A "READY" or "RESUMED" dispatch with a payload marks the connector
    ready, stores the payload's trace, and announces it once, saying
    whether the session was resumed.  Only "READY" replaces the session
    identifier, by the one in its payload; "RESUMED" keeps the stored
    one. *)
Theorem session_event_marks_ready (env : Env) (m : Message) (c : Connector)
    (v : DataView) :
  op m = OP.DISPATCH ->
  isSessionEvent m = true ->
  d m = Some v ->
  val (messageAction env m c) = Some tt /\
  status (st (messageAction env m c)) = ready /\
  sessionId (st (messageAction env m c)) =
    (if isReady m then session_id v else sessionId c) /\
  _trace (st (messageAction env m c)) = d_trace v /\
  seq (st (messageAction env m c)) = seqAfter m c /\
  log (messageAction env m c) =
    ClientRawReceive m :: trackLog env m c
    ++ [EmitStateChange ready; EmitReady (isResumed m); EmitEvent m].
Proof.
  intros Hop Hev Hd.
  rewrite messageAction_eq, (route_dispatch _ _ Hop).
  destruct (tracked_frame m c) as (_ & _ & Hsess & Hseq & _).
  rewrite <- Hsess, <- Hseq. generalize (tracked m c). intros c'.
  unfold handleDispatch, readD, isReady, isResumed. rewrite Hev, Hd.
  destruct (JS.truthyOpt (fun n => String.eqb n "READY") (t m)),
    (JS.truthyOpt (fun n => String.eqb n "RESUMED") (t m)), c';
    repeat split; reflexivity.
Qed.

(** An instance: the "READY" of the sample session. *)
Lemma session_event_marks_ready_witness :
  op Sample.readyMsg = OP.DISPATCH /\
  isSessionEvent Sample.readyMsg = true /\
  sessionId (st (messageAction Sample.env0 Sample.readyMsg (Sample.greeted true)))
  = Some "abc".
Proof.
  split; [reflexivity|]. split; [reflexivity|].
  destruct (session_event_marks_ready Sample.env0 Sample.readyMsg
              (Sample.greeted true)
              {| d_truthy := true; heartbeat_interval := 0; d_trace := None;
                 session_id := Some "abc" |} eq_refl eq_refl eq_refl)
    as (_ & _ & H & _).
  exact H.
Defined.

(** The same dispatches with a null payload make the handler throw.
    "READY" throws at once and changes nothing.  "RESUMED" has by then
    marked the connector ready and said so in a state change, but neither
    the ready notification nor the event follows. *)
Theorem session_event_without_payload_throws (env : Env) (m : Message)
    (c : Connector) :
  op m = OP.DISPATCH ->
  isSessionEvent m = true ->
  d m = None ->
  val (messageAction env m c) = None /\
  st (messageAction env m c) =
    (if isReady m then tracked m c else set_status ready (tracked m c)) /\
  log (messageAction env m c) =
    ClientRawReceive m :: trackLog env m c
    ++ (if isReady m then [] else [EmitStateChange ready]).
Proof.
  intros Hop Hev Hd.
  rewrite messageAction_eq, (route_dispatch _ _ Hop).
  generalize (tracked m c). intros c'.
  unfold handleDispatch, readD, isReady. rewrite Hev, Hd.
  destruct (JS.truthyOpt (fun n => String.eqb n "READY") (t m)), c';
    repeat split; reflexivity.
Qed.

(** An instance: a "RESUMED" that carries nothing. *)
Lemma session_event_without_payload_throws_witness :
  op {| op := 0; d := None; s := None; t := Some "RESUMED" |} = OP.DISPATCH /\
  status (st (messageAction Sample.env0
                {| op := 0; d := None; s := None; t := Some "RESUMED" |}
                (Sample.greeted true))) = ready /\
  List.filter isEmitReady
    (log (messageAction Sample.env0
            {| op := 0; d := None; s := None; t := Some "RESUMED" |}
            (Sample.greeted true))) = [].
Proof.
  split; [reflexivity|].
  destruct (session_event_without_payload_throws Sample.env0
              {| op := 0; d := None; s := None; t := Some "RESUMED" |}
              (Sample.greeted true) eq_refl eq_refl eq_refl)
    as (_ & Hst & Hlog).
  split; [rewrite Hst | rewrite Hlog]; reflexivity.
Defined.

(** The session identifier that a "READY" brings is the one the next
    [identify] resumes with, together with the sequence the "READY"
    carried: no identify is sent unless it is forced. *)
Theorem ready_then_identify_resumes (resolve : Z -> Z) (env env' : Env)
    (m : Message) (c : Connector) (v : DataView) :
  op m = OP.DISPATCH ->
  isReady m = true ->
  d m = Some v ->
  JS.truthyOpt JS.truthyStr (session_id v) = true ->
  log (identify env' resolve None (st (messageAction env m c))) =
    notOpen env' DbgIdentifyNotOpen ++ notOpen env' DbgResumeNotOpen
    ++ [ClientDebug (DbgResuming (id c)); EmitStateChange resuming;
        WsSend (OutResume (seqAfter m c) (token (options c)) (session_id v))] /\
  status (st (identify env' resolve None (st (messageAction env m c)))) = resuming.
Proof.
  intros Hop Hready Hd Hsess.
  assert (Hev : isSessionEvent m = true).
  { unfold isSessionEvent, isReady in *. destruct (t m) as [n|]; [|discriminate].
    cbn in Hready. rewrite Hready. reflexivity. }
  rewrite messageAction_eq, (route_dispatch _ _ Hop).
  rewrite (handleDispatch_session_eq m _ v Hev Hd), Hready. cbn [st].
  destruct (tracked_frame m c) as (Hid & Hopts & _ & Hseq & _).
  rewrite <- Hid, <- Hopts, <- Hseq. generalize (tracked m c). intros c'.
  rewrite identify_resume_eq.
  - unfold resumeLog, notOpen. destruct c'; split; reflexivity.
  - destruct c'. cbn [sessionId set__trace set_status set_sessionId].
    rewrite Hsess. reflexivity.
Qed.

(** An instance: the sample session is resumed. *)
Lemma ready_then_identify_resumes_witness :
  op Sample.readyMsg = OP.DISPATCH /\
  isReady Sample.readyMsg = true /\
  JS.truthyOpt JS.truthyStr (Some "abc") = true /\
  log (identify Sample.env0 Sample.resolve None
         (st (messageAction Sample.env0 Sample.readyMsg (Sample.greeted true)))) =
    [ClientDebug (DbgResuming 0); EmitStateChange resuming;
     WsSend (OutResume 1 "token" (Some "abc"))].
Proof.
  split; [reflexivity|]. split; [reflexivity|]. split; [reflexivity|].
  exact (proj1 (ready_then_identify_resumes Sample.resolve Sample.env0
                  Sample.env0 Sample.readyMsg (Sample.greeted true)
                  {| d_truthy := true; heartbeat_interval := 0; d_trace := None;
                     session_id := Some "abc" |}
                  eq_refl eq_refl eq_refl eq_refl)).
Defined.

(** ** Hello, heartbeats and acknowledgements *)

(** What looking at the sequence number leaves alone. *)
Lemma tracked_schedule (m : Message) (c : Connector) :
  heartbeatInterval (tracked m c) = heartbeatInterval c /\
  nextTimer (tracked m c) = nextTimer c /\
  lastHeartbeatSend (tracked m c) = lastHeartbeatSend c /\
  lastACKAt (tracked m c) = lastACKAt c.
Proof.
  unfold tracked. destruct (gap m c), c; repeat split; reflexivity.
Qed.

Lemma heartbeat_eq (env : Env) (c : Connector) :
  heartbeat env c =
  mkRes (Some tt) (set_lastHeartbeatSend (now env) c)
        (notOpen env DbgHeartbeatNotOpen ++ [WsSend (OutHeartbeat (seq c))]).
Proof.
  unfold heartbeat, notOpen.
  destruct env as [nw ws], c. cbn [wsStatus now]. destruct (ws =? 1); reflexivity.
Qed.

(** A hello with a payload sends a heartbeat at once, carrying the stored
    sequence, takes the interval from the payload, schedules a new timer
    at that interval and keeps its handle, stores the trace and asks for
    an identify.  It cancels nothing: every timer that was scheduled
    before, a previous heartbeat timer included, is still scheduled. *)
Theorem hello_starts_heartbeat (env : Env) (m : Message) (c : Connector)
    (v : DataView) :
  op m = OP.HELLO ->
  d m = Some v ->
  val (messageAction env m c) = Some tt /\
  log (messageAction env m c) =
    ClientRawReceive m :: trackLog env m c
    ++ [ClientDebug (DbgHello (id c))] ++ notOpen env DbgHeartbeatNotOpen
    ++ [WsSend (OutHeartbeat (seqAfter m c));
        SetInterval (nextTimer c) (heartbeat_interval v);
        EmitQueueIdentify (id c)] /\
  heartbeatInterval (st (messageAction env m c)) = heartbeat_interval v /\
  heartbeatTimeout (st (messageAction env m c)) = Some (nextTimer c) /\
  timers (st (messageAction env m c)) = nextTimer c :: timers c /\
  _trace (st (messageAction env m c)) = d_trace v /\
  lastHeartbeatSend (st (messageAction env m c)) = now env /\
  sessionId (st (messageAction env m c)) = sessionId c.
Proof.
  intros Hop Hd.
  rewrite messageAction_eq, (route_hello _ _ Hop).
  destruct (tracked_frame m c) as (Hid & _ & Hsess & Hseq & _ & _ & Htm & _).
  destruct (tracked_schedule m c) as (_ & Hnext & _).
  rewrite <- Hid, <- Hsess, <- Hseq, <- Htm, <- Hnext.
  generalize (tracked m c). intros c'.
  unfold onHello, readD, setInterval. rewrite Hd.
  rewrite (bind_completed _ _ c' c' c' []) by reflexivity.
  rewrite (bind_completed _ _ c' c' tt [ClientDebug (DbgHello (id c'))])
    by reflexivity.
  rewrite (bind_completed _ _ c' _ tt _ (heartbeat_eq env c')).
  destruct c'. cbn [val st log app]. unfold notOpen.
  destruct (wsStatus env =? 1); repeat split; reflexivity.
Qed.

(** An instance: the sample hello on a fresh, connected connector. *)
Lemma hello_starts_heartbeat_witness :
  op Sample.helloMsg = OP.HELLO /\
  timers (st (messageAction Sample.env0 Sample.helloMsg
                (Sample.established true false))) = [1%nat; 0%nat].
Proof.
  split; [reflexivity|].
  destruct (hello_starts_heartbeat Sample.env0 Sample.helloMsg
              (Sample.established true false)
              {| d_truthy := true; heartbeat_interval := 40000;
                 d_trace := Some "gateway-1"; session_id := None |}
              eq_refl eq_refl) as (_ & _ & _ & _ & H & _).
  exact H.
Defined.

(** A hello whose payload is null makes the handler throw once the
    immediate heartbeat has gone out: no timer is scheduled, the interval
    is not set and no identify is asked for. *)
Theorem hello_without_payload_throws (env : Env) (m : Message) (c : Connector) :
  op m = OP.HELLO ->
  d m = None ->
  val (messageAction env m c) = None /\
  log (messageAction env m c) =
    ClientRawReceive m :: trackLog env m c
    ++ [ClientDebug (DbgHello (id c))] ++ notOpen env DbgHeartbeatNotOpen
    ++ [WsSend (OutHeartbeat (seqAfter m c))] /\
  st (messageAction env m c) = set_lastHeartbeatSend (now env) (tracked m c).
Proof.
  intros Hop Hd.
  rewrite messageAction_eq, (route_hello _ _ Hop).
  destruct (tracked_frame m c) as (Hid & _ & _ & Hseq & _).
  rewrite <- Hid, <- Hseq.
  generalize (tracked m c). intros c'.
  unfold onHello, readD. rewrite Hd.
  rewrite (bind_completed _ _ c' c' c' []) by reflexivity.
  rewrite (bind_completed _ _ c' c' tt [ClientDebug (DbgHello (id c'))])
    by reflexivity.
  rewrite (bind_completed _ _ c' _ tt _ (heartbeat_eq env c')).
  destruct c'. cbn [val st log app]. unfold notOpen.
  destruct (wsStatus env =? 1); repeat split; reflexivity.
Qed.

(** An instance: a hello that carries nothing. *)
Lemma hello_without_payload_throws_witness :
  op {| op := 10; d := None; s := None; t := None |} = OP.HELLO /\
  val (messageAction Sample.env0 {| op := 10; d := None; s := None; t := None |}
         (init 0 (Sample.opts true) [])) = None.
Proof.
  split; [reflexivity|].
  exact (proj1 (hello_without_payload_throws Sample.env0
                  {| op := 10; d := None; s := None; t := None |}
                  (init 0 (Sample.opts true) []) eq_refl eq_refl)).
Defined.

(** A heartbeat request is answered at once with the stored sequence, and
    the schedule is left as it is: no timer is set or cleared and the
    interval is unchanged. *)
Theorem heartbeat_request_keeps_schedule (env : Env) (m : Message) (c : Connector) :
  op m = OP.HEARTBEAT ->
  log (messageAction env m c) =
    ClientRawReceive m :: trackLog env m c
    ++ notOpen env DbgHeartbeatNotOpen
    ++ [WsSend (OutHeartbeat (seqAfter m c))] /\
  st (messageAction env m c) = set_lastHeartbeatSend (now env) (tracked m c) /\
  heartbeatTimeout (st (messageAction env m c)) = heartbeatTimeout c /\
  heartbeatInterval (st (messageAction env m c)) = heartbeatInterval c /\
  timers (st (messageAction env m c)) = timers c.
Proof.
  intros Hop.
  rewrite messageAction_eq, (route_heartbeat _ _ Hop), heartbeat_eq.
  destruct (tracked_frame m c) as (_ & _ & _ & Hseq & _ & Hhb & Htm & _).
  destruct (tracked_schedule m c) as (Hint & _).
  rewrite <- Hseq, <- Hhb, <- Htm, <- Hint.
  destruct (tracked m c); repeat split; reflexivity.
Qed.

(** An instance: a heartbeat request on the sample session. *)
Lemma heartbeat_request_keeps_schedule_witness :
  op {| op := 1; d := None; s := None; t := None |} = OP.HEARTBEAT /\
  log (messageAction Sample.env0 {| op := 1; d := None; s := None; t := None |}
         (Sample.established true false)) =
    [ClientRawReceive {| op := 1; d := None; s := None; t := None |};
     WsSend (OutHeartbeat 42)].
Proof.
  split; [reflexivity|].
  exact (proj1 (heartbeat_request_keeps_schedule Sample.env0
                  {| op := 1; d := None; s := None; t := None |}
                  (Sample.established true false) eq_refl)).
Defined.

(** An acknowledgement records the time it came and the latency since the
    last heartbeat was sent.  From then on the tick finds the connection
    alive, and sends the next heartbeat instead of reconnecting, as long
    as fewer than [heartbeatInterval + 5000] ms have gone by; from that
    moment on it finds it dead. *)
Theorem ack_keeps_alive (env env' : Env) (m : Message) (c : Connector) :
  op m = OP.HEARTBEAT_ACK ->
  now env' < now env + (heartbeatInterval c + 5000) ->
  lastACKAt (st (messageAction env m c)) = now env /\
  latency (st (messageAction env m c)) = now env - lastHeartbeatSend c /\
  (forall env'', ackOverdue env'' (st (messageAction env m c))
                 = (now env + (heartbeatInterval c + 5000) <=? now env'')) /\
  log (heartbeatTick env' (st (messageAction env m c))) =
    notOpen env' DbgHeartbeatNotOpen ++ [WsSend (OutHeartbeat (seqAfter m c))] /\
  lastHeartbeatSend (st (heartbeatTick env' (st (messageAction env m c))))
  = now env'.
Proof.
  intros Hop Hsoon.
  rewrite messageAction_eq, (route_heartbeat_ack _ _ Hop). cbn [st].
  destruct (tracked_frame m c) as (_ & _ & _ & Hseq & _).
  destruct (tracked_schedule m c) as (Hint & _ & Hsend & _).
  revert Hsoon. rewrite <- Hseq, <- Hint, <- Hsend.
  generalize (tracked m c). intros c' Hsoon.
  assert (Hover : forall env'',
            ackOverdue env'' (st (onHeartbeatAck env c'))
            = (now env + (heartbeatInterval c' + 5000) <=? now env'')).
  { intros env''. unfold ackOverdue. destruct c'.
    cbn [onHeartbeatAck bind modify get val st log lastACKAt heartbeatInterval
         set_lastACKAt set_latency].
    apply Bool.eq_true_iff_eq. rewrite !Z.leb_le. lia. }
  split; [destruct c'; reflexivity|].
  split; [destruct c'; reflexivity|].
  split; [exact Hover|].
  rewrite heartbeatTick_alive, heartbeat_eq.
  - destruct c'; split; reflexivity.
  - rewrite Hover. apply Z.leb_gt. exact Hsoon.
Qed.

(** An instance: a tick 10 s after the acknowledgement. *)
Lemma ack_keeps_alive_witness :
  op {| op := 11; d := None; s := None; t := None |} = OP.HEARTBEAT_ACK /\
  now Sample.late
    < now Sample.env0 + (heartbeatInterval (Sample.established true false) + 5000) /\
  log (heartbeatTick Sample.late
         (st (messageAction Sample.env0
                {| op := 11; d := None; s := None; t := None |}
                (Sample.established true false)))) =
    [WsSend (OutHeartbeat 42)].
Proof.
  split; [reflexivity|].
  assert (H : now Sample.late
              < now Sample.env0
                + (heartbeatInterval (Sample.established true false) + 5000))
    by reflexivity.
  split; [exact H|].
  destruct (ack_keeps_alive Sample.env0 Sample.late
              {| op := 11; d := None; s := None; t := None |}
              (Sample.established true false) eq_refl H) as (_ & _ & _ & Hlog & _).
  exact Hlog.
Defined.

(** ** Resumes *)

(** When a message makes the connector send a resume: on a gap in the
    sequence, and on a session-invalid message that can be resumed; a
    message that is both gets two.  Every one of them carries the sequence
    number just adopted, the token and the stored session identifier. *)
Theorem resume_policy (env : Env) (m : Message) (c : Connector) :
  List.filter isResumeSend (log (messageAction env m c)) =
    (if gap m c
     then [WsSend (OutResume (seqAfter m c) (token (options c)) (sessionId c))]
     else [])
    ++ (if (op m =? OP.INVALID_SESSION) && resumable m c
        then [WsSend (OutResume (seqAfter m c) (token (options c)) (sessionId c))]
        else []).
Proof.
  rewrite messageAction_eq. cbn [log List.filter isResumeSend].
  rewrite List.filter_app. f_equal.
  - unfold trackLog, resumeLog.
    destruct (gap m c), (wsStatus env =? 1); reflexivity.
  - destruct (tracked_frame m c) as (_ & Hopts & Hsess & Hseq & _).
    assert (Hres : resumable m (tracked m c) = resumable m c)
      by (unfold resumable; rewrite Hsess; reflexivity).
    rewrite <- Hres, <- Hopts, <- Hsess, <- Hseq.
    generalize (tracked m c). intros c'.
    route_cases env m; cbn [andb].
    + unfold handleDispatch, isSessionEvent, readD.
      destruct m as [o [v|] ss [n|]]; cbn [t d JS.truthyOpt];
        try destruct (String.eqb n "READY"); try destruct (String.eqb n "RESUMED");
        destruct c'; reflexivity.
    + rewrite heartbeat_eq. unfold notOpen.
      destruct (wsStatus env =? 1); reflexivity.
    + rewrite onReconnect_eq. unfold reconnectLog.
      destruct (opt_reconnect _), (wsStatus env =? 2); reflexivity.
    + rewrite onInvalidSession_eq. unfold resumeLog.
      destruct (resumable m c'), (wsStatus env =? 1); reflexivity.
    + unfold onHello, heartbeat, readD.
      destruct (d m), (wsStatus env =? 1), c'; reflexivity.
    + reflexivity.
    + reflexivity.
Qed.

(** ** What the operations leave alone, for any observation *)

Lemma resume_preserves_any {X : Type} (f : Connector -> X) (env : Env) :
  (forall s c, f (set_status s c) = f c) ->
  preserves f (resume env).
Proof.
  intros Hstatus. unfold resume.
  apply preserves_bind; [auto with frame|]. intros _.
  apply preserves_bind; [auto with frame|]. intros c.
  apply preserves_bind; [auto with frame|]. intros _.
  apply preserves_bind; [apply preserves_modify, Hstatus|]. intros _.
  auto with frame.
Qed.

Lemma identify_preserves_any {X : Type} (f : Connector -> X)
    (resolve : Z -> Z) (env : Env) (force : option bool) :
  (forall s c, f (set_status s c) = f c) ->
  (forall p c, f (atInitialPresence p c) = f c) ->
  (forall h c, f (set_heap h c) = f c) ->
  preserves f (identify env resolve force).
Proof.
  intros Hstatus Hplace Hheap. unfold identify.
  apply preserves_bind; [auto with frame|]. intros _.
  apply preserves_bind; [auto with frame|]. intros c.
  destruct (_ && _); [apply resume_preserves_any, Hstatus|].
  apply preserves_bind; [auto with frame|]. intros _.
  apply preserves_bind; [apply preserves_modify, Hstatus|]. intros _.
  apply preserves_bind; [auto with frame|]. intros _.
  apply preserves_bind; [|auto with frame].
  destruct (initialPresence (options c)) as [p|]; [|auto with frame].
  apply preserves_bind; [|auto with frame].
  apply checkPresenceData_preserves; assumption.
Qed.

Lemma presenceUpdate_preserves_any {X : Type} (f : Connector -> X)
    (env : Env) (data : Presence) :
  (forall h c, f (set_heap h c) = f c) ->
  preserves f (presenceUpdate env data).
Proof.
  intros Hheap. unfold presenceUpdate.
  apply preserves_bind; [|auto with frame].
  apply checkPresenceData_preserves; [reflexivity | exact Hheap].
Qed.

Lemma handleWsClose_seq (code : Z) (reason : string) (c : Connector) :
  seq (st (handleWsClose code reason c)) = if code =? 4007 then 0 else seq c.
Proof.
  destruct (close_code_cases code) as [Hcode|Hother].
  - destruct c as [? ? [?|] ? ? ? ? ? ? ? ? [|] [|] ? ? ? ?];
      repeat (destruct Hcode as [->|Hcode]); try subst code; reflexivity.
  - rewrite (close_other_eq code reason c Hother).
    destruct Hother as (_ & _ & _ & _ & _ & _ & _ & H7 & _).
    rewrite (proj2 (Z.eqb_neq code 4007) H7). destruct c; reflexivity.
Qed.

Lemma handleWsClose_timer (code : Z) (reason : string) (c : Connector) :
  timerView (st (handleWsClose code reason c)) =
    if reconnectsOn code c || gracefulOn code c
    then (None, timers (heartStopped c)) else timerView c.
Proof.
  destruct (close_code_cases code) as [Hcode|Hother].
  - destruct c as [? ? [?|] ? ? ? ? ? ? ? ? [|] [|] ? ? ? ?];
      repeat (destruct Hcode as [->|Hcode]); try subst code; reflexivity.
  - rewrite (close_other_eq code reason c Hother).
    destruct Hother as (? & ? & ? & ? & ? & ? & ? & ? & ? & ? & ? & ? & ? & ? & ?).
    destruct c. unfold reconnectsOn, gracefulOn. refute_tests. reflexivity.
Qed.

(** ** The sequence is moved by inbound messages only *)

(** No send and no call moves the stored sequence: apart from an inbound
    message and the close with code 4007, which resets it, every event
    leaves it as it is: connect, disconnect, identify and the resume it
    may send, presence, voice and member requests, heartbeat ticks, the
    transport opening, every other close, a settled reconnect. *)
Theorem sequence_moved_by_messages_only
    (resolve : Z -> Z) (env : Env) (e : Event) (c : Connector) :
  allResume c = true ->
  mayChangeSeq e = false ->
  seq (st (step resolve env e c)) = seq c.
Proof.
  intros Hall Hquiet.
  destruct e as [|m|code reason|h|n| | |force|data|data|data];
    cbn [step mayChangeSeq] in *.
  - destruct c; reflexivity.
  - discriminate Hquiet.
  - rewrite handleWsClose_seq, Hquiet. reflexivity.
  - destruct (bool_decide (h ∈ timers c)); [|reflexivity].
    destruct (ackOverdue env c) eqn:Hover.
    + rewrite (heartbeatTick_overdue env c Hover).
      destruct c, (opt_reconnect _); reflexivity.
    + rewrite (heartbeatTick_alive env c Hover), heartbeat_eq.
      destruct c; reflexivity.
  - destruct (suspended c !! n) as [r|] eqn:Hn; [|reflexivity].
    rewrite (bind_completed _ _ c (set_suspended (delete n (suspended c)) c) tt [])
      by reflexivity.
    assert (Hr : r = true) by exact (forallb_lookup _ n _ r Hall Hn).
    subst r. destruct c as [? ? [?|] ? ? ? ? ? ? ? ? ? ? ? ? ? ?]; reflexivity.
  - reflexivity.
  - reflexivity.
  - apply identify_preserves_any; intros ? []; reflexivity.
  - apply presenceUpdate_preserves_any; intros ? []; reflexivity.
  - destruct data; reflexivity.
  - reflexivity.
Qed.

(** An instance: a forced identify on the sample session. *)
Lemma sequence_moved_by_messages_only_witness :
  allResume (Sample.established true false) = true /\
  mayChangeSeq (CallIdentify (Some true)) = false /\
  seq (st (step Sample.resolve Sample.env0 (CallIdentify (Some true))
             (Sample.established true false))) = 42.
Proof.
  split; [reflexivity|]. split; [reflexivity|].
  exact (sequence_moved_by_messages_only Sample.resolve Sample.env0
           (CallIdentify (Some true)) (Sample.established true false)
           eq_refl eq_refl).
Defined.

(** ** The heartbeat timer handle *)

Lemma handleIsLive_view (c c' : Connector) :
  timerView c' = timerView c -> handleIsLive c' = handleIsLive c.
Proof.
  unfold timerView, handleIsLive. intros Hview.
  injection Hview as -> ->. reflexivity.
Qed.

Lemma route_live (env : Env) (m : Message) (c : Connector) :
  handleIsLive c = true -> handleIsLive (st (route env m c)) = true.
Proof.
  intros Hlive.
  route_cases env m.
  - rewrite <- Hlive. apply handleIsLive_view.
    unfold handleDispatch, isSessionEvent, readD.
    destruct m as [o [v|] ss [n|]]; cbn [t d JS.truthyOpt];
      try destruct (String.eqb n "READY"); try destruct (String.eqb n "RESUMED");
      destruct c; reflexivity.
  - rewrite <- Hlive. apply handleIsLive_view.
    rewrite heartbeat_eq. destruct c; reflexivity.
  - rewrite <- Hlive. apply handleIsLive_view.
    rewrite onReconnect_eq. destruct c, (opt_reconnect _); reflexivity.
  - rewrite <- Hlive. apply handleIsLive_view.
    rewrite onInvalidSession_eq. destruct (resumable m c), c; reflexivity.
  - unfold onHello, readD, setInterval.
    rewrite (bind_completed _ _ c c c []) by reflexivity.
    rewrite (bind_completed _ _ c c tt [ClientDebug (DbgHello (id c))])
      by reflexivity.
    rewrite (bind_completed _ _ c _ tt _ (heartbeat_eq env c)).
    destruct (d m) as [v|].
    + destruct c. cbn. apply bool_decide_eq_true_2. left.
    + rewrite <- Hlive. apply handleIsLive_view. destruct c; reflexivity.
  - rewrite <- Hlive. apply handleIsLive_view. destruct c; reflexivity.
  - rewrite <- Hlive. apply handleIsLive_view. destruct c; reflexivity.
Qed.

Lemma step_live (resolve : Z -> Z) (env : Env) (e : Event) (c : Connector) :
  handleIsLive c = true -> handleIsLive (st (step resolve env e c)) = true.
Proof.
  intros Hlive.
  destruct e as [|m|code reason|h|n| | |force|data|data|data]; cbn [step].
  - rewrite <- Hlive. apply handleIsLive_view. destruct c; reflexivity.
  - rewrite messageAction_eq. cbn [st]. apply route_live.
    rewrite <- Hlive. apply handleIsLive_view.
    unfold tracked. destruct (gap m c), c; reflexivity.
  - pose proof (handleWsClose_timer code reason c) as Hview.
    destruct (_ || _).
    + assert (Hh : heartbeatTimeout (st (handleWsClose code reason c)) = None)
        by exact (f_equal fst Hview).
      unfold handleIsLive. rewrite Hh. reflexivity.
    + rewrite <- Hlive. apply handleIsLive_view. exact Hview.
  - destruct (bool_decide (h ∈ timers c)); [|exact Hlive].
    rewrite <- Hlive. apply handleIsLive_view.
    destruct (ackOverdue env c) eqn:Hover.
    + rewrite (heartbeatTick_overdue env c Hover).
      destruct c, (opt_reconnect _); reflexivity.
    + rewrite (heartbeatTick_alive env c Hover), heartbeat_eq.
      destruct c; reflexivity.
  - destruct (suspended c !! n) as [r|]; [|exact Hlive].
    rewrite (bind_completed _ _ c (set_suspended (delete n (suspended c)) c) tt [])
      by reflexivity.
    destruct c as [? ? [?|] ? ? ? ? ? ? ? ? ? ? ? ? ? ?], r; reflexivity.
  - rewrite <- Hlive. apply handleIsLive_view. destruct c; reflexivity.
  - rewrite <- Hlive. apply handleIsLive_view. destruct c; reflexivity.
  - rewrite <- Hlive. apply handleIsLive_view.
    apply (identify_preserves_any timerView); intros ? []; reflexivity.
  - rewrite <- Hlive. apply handleIsLive_view.
    apply (presenceUpdate_preserves_any timerView); intros ? []; reflexivity.
  - rewrite <- Hlive. apply handleIsLive_view. destruct data, c; reflexivity.
  - exact Hlive.
Qed.

(** The connector never keeps the handle of a timer it has cleared: along
    every run, whatever the events, the handle in [heartbeatTimeout] is
    that of a timer still scheduled, or there is none. *)
Theorem stored_handle_is_scheduled
    (resolve : Z -> Z) (evs : list (Env * Event)) (c : Connector) :
  handleIsLive c = true ->
  handleIsLive (fst (run resolve evs c)) = true.
Proof.
  revert c. induction evs as [|[env e] evs IH]; intros c Hlive; [exact Hlive|].
  cbn [run]. destruct (run resolve evs (st (step resolve env e c))) eqn:Hrun.
  cbn [fst]. change c0 with (fst (c0, l)). rewrite <- Hrun.
  apply IH, step_live, Hlive.
Qed.

(** An instance: a fresh connector through hello, a missed
    acknowledgement and the reconnect. *)
Lemma stored_handle_is_scheduled_witness :
  handleIsLive (init 0 (Sample.opts true) []) = true /\
  handleIsLive
    (fst (run Sample.resolve
            [(Sample.env0, CallConnect); (Sample.env0, EvOpen);
             (Sample.env0, EvMessage Sample.helloMsg);
             (Sample.late, EvTick 0); (Sample.late, EvSettled 0)]
            (init 0 (Sample.opts true) []))) = true.
Proof.
  split; [reflexivity|].
  exact (stored_handle_is_scheduled Sample.resolve
           [(Sample.env0, CallConnect); (Sample.env0, EvOpen);
            (Sample.env0, EvMessage Sample.helloMsg);
            (Sample.late, EvTick 0); (Sample.late, EvSettled 0)]
           (init 0 (Sample.opts true) []) eq_refl).
Defined.

(** ** Identify *)

(** [identify] sends exactly one message, also when the transport is not
    open, which only a debug notification then tells: a resume when a
    session identifier is stored and no fresh session is forced, an
    identify otherwise.  A forced identify keeps the stored session
    identifier.  The shard count defaults to 1 and the intents to 0. *)
Theorem identify_decision (resolve : Z -> Z) (env : Env) (force : option bool)
    (c : Connector) :
  initialPresence (options c) = None ->
  sessionId (st (identify env resolve force c)) = sessionId c /\
  if JS.truthyOpt JS.truthyStr (sessionId c)
     && negb (JS.truthyOpt (fun b : bool => b) force)
  then
    status (st (identify env resolve force c)) = resuming /\
    log (identify env resolve force c) =
      notOpen env DbgIdentifyNotOpen ++ notOpen env DbgResumeNotOpen
      ++ [ClientDebug (DbgResuming (id c)); EmitStateChange resuming;
          WsSend (OutResume (seq c) (token (options c)) (sessionId c))]
  else
    status (st (identify env resolve force c)) = identifying /\
    log (identify env resolve force c) =
      notOpen env DbgIdentifyNotOpen
      ++ [ClientDebug (DbgIdentifying (id c)); EmitStateChange identifying;
          WsSend (OutIdentify (token (options c))
                    (largeGuildThreshold (options c))
                    (id c, match totalShards (options c) with
                           | Some n => if n =? 0 then 1 else n
                           | None => 1
                           end)
                    (match intents (options c) with
                     | Some i => if i =? 0 then 0 else resolve i
                     | None => 0
                     end)
                    None)].
Proof.
  intros Hnone.
  destruct (_ && _) eqn:Hcond.
  - rewrite (identify_resume_eq resolve env force c Hcond).
    unfold resumeLog, notOpen. destruct c; repeat split; reflexivity.
  - unfold identify, notOpen.
    rewrite (bind_completed _ _ c c tt _ (when_debug_eq _ _ c)).
    rewrite (bind_completed _ _ c c c []) by reflexivity.
    rewrite Hcond, Hnone. unfold JS.orElse, JS.truthyNum.
    destruct c as [? [? ? ? [n|] [i|] ?] ? ? ? ? ? ? ? ? ? ? ? ? ? ? ?];
      cbn [options totalShards intents];
      try destruct (n =? 0); try destruct (i =? 0);
      destruct (wsStatus env =? 1); repeat split; reflexivity.
Qed.

(** An instance: a forced identify on the sample session. *)
Lemma identify_decision_witness :
  initialPresence (options (Sample.established true false)) = None /\
  log (identify Sample.env0 Sample.resolve (Some true)
         (Sample.established true false)) =
    [ClientDebug (DbgIdentifying 0); EmitStateChange identifying;
     WsSend (OutIdentify "token" None (0, 1) 0 None)].
Proof.
  split; [reflexivity|].
  destruct (identify_decision Sample.resolve Sample.env0 (Some true)
              (Sample.established true false) eq_refl) as (_ & _ & H).
  exact H.
Defined.

(** ** Voice state and member requests *)

(** A voice state update goes out with the channel it names, or with no
    channel when none or the empty one was given, and with both flags
    present, a missing one being false; normalising it again changes
    nothing, and the state of the connector is left as it was.  Without
    data nothing is sent. *)
Theorem voice_state_is_normalised (v : VoiceState) (c : Connector) :
  _checkVoiceStateUpdateData v
  = {| channel_id :=
         match channel_id v with
         | Some (String a rest) => Some (String a rest)
         | Some EmptyString | None => None
         end;
       self_mute := Some (default false (self_mute v));
       self_deaf := Some (default false (self_deaf v)) |} /\
  _checkVoiceStateUpdateData (_checkVoiceStateUpdateData v)
  = _checkVoiceStateUpdateData v /\
  voiceStateUpdate (Some v) c
  = mkRes (Some tt) c
      [WsSend (OutVoiceStateUpdate
                 {| channel_id :=
                      match channel_id v with
                      | Some (String a rest) => Some (String a rest)
                      | Some EmptyString | None => None
                      end;
                    self_mute := Some (default false (self_mute v));
                    self_deaf := Some (default false (self_deaf v)) |})] /\
  voiceStateUpdate None c = mkRes (Some tt) c [].
Proof.
  destruct v as [[[|a ch]|] [[|]|] [[|]|]]; repeat split; reflexivity.
Qed.

(** A member request goes out with a query and a limit: the empty query
    and 0 stand in for the missing ones, and what was given is sent as it
    was; normalising it again changes nothing. *)
Theorem members_request_is_normalised (r : MembersRequest) (c : Connector) :
  _checkRequestGuildMembersData r
  = {| query := Some (default "" (query r));
       limit := Some (default 0 (limit r)) |} /\
  _checkRequestGuildMembersData (_checkRequestGuildMembersData r)
  = _checkRequestGuildMembersData r /\
  requestGuildMembers r c
  = mkRes (Some tt) c
      [WsSend (OutRequestGuildMembers
                 {| query := Some (default "" (query r));
                    limit := Some (default 0 (limit r)) |})].
Proof.
  assert (Hnorm : forall r0, _checkRequestGuildMembersData r0
            = {| query := Some (default "" (query r0));
                 limit := Some (default 0 (limit r0)) |}).
  { intros [[[|a q]|] [l|]]; unfold _checkRequestGuildMembersData, JS.orElse,
      JS.truthyNum; cbn [query limit default JS.truthyStr negb];
      try (destruct (Z.eqb_spec l 0) as [->|]); reflexivity. }
  split; [apply Hnorm|]. split.
  - rewrite !Hnorm. reflexivity.
  - unfold requestGuildMembers. rewrite Hnorm. reflexivity.
Qed.

(** ** The activities loop, beyond its failing case *)

Lemma namedIn_insert (h : list Activity) (r : nat) (a : Activity) :
  h !! r = Some a ->
  forall r', namedIn (<[r := defaultType a]> h) r' = namedIn h r'.
Proof.
  intros Ha r'. unfold namedIn. destruct (decide (r' = r)) as [->|Hne].
  - rewrite list_lookup_insert_eq by (apply lookup_lt_Some in Ha; exact Ha).
    rewrite Ha, defaultType_name. reflexivity.
  - rewrite list_lookup_insert_ne by congruence. reflexivity.
Qed.

Lemma indexOf_found (arr : list nat) (i r : nat) :
  arr !! i = Some r -> exists j, indexOf arr r = Some j /\ arr !! j = Some r.
Proof.
  revert i. induction arr as [|x arr IH]; intros i Hi; [destruct i; discriminate|].
  cbn [indexOf]. destruct (Nat.eqb_spec x r) as [->|Hne].
  - exists 0%nat. split; reflexivity.
  - destruct i as [|i]; cbn in Hi; [congruence|].
    destruct (IH i Hi) as (j & Hj & Hjr).
    exists (S j). rewrite Hj. split; [reflexivity | exact Hjr].
Qed.

Lemma filter_delete (p : nat -> bool) (arr : list nat) (j r : nat) :
  arr !! j = Some r -> p r = false ->
  List.filter p (delete j arr) = List.filter p arr.
Proof.
  revert j. induction arr as [|x arr IH]; intros j Hj Hp; [destruct j; discriminate|].
  destruct j as [|j]; cbn in Hj.
  - injection Hj as ->. change (delete 0%nat (r :: arr)) with arr.
    cbn [List.filter]. rewrite Hp. reflexivity.
  - change (delete (S j) (x :: arr)) with (x :: delete j arr).
    cbn [List.filter]. rewrite (IH j Hj Hp). reflexivity.
Qed.

(** The loop never loses an activity that has a name: whatever the array
    and the objects, and however the loop ends, the activities with a
    name are in the resulting array as they were in the given one, in the
    same order and as many times; the resulting array only lacks entries
    of the given one; and no object's name is changed. *)
Theorem named_activities_are_kept (fuel i : nat) (arr : list nat)
    (h : list Activity) :
  List.filter (namedIn h) (snd (fst (activitiesLoop fuel i arr h)))
  = List.filter (namedIn h) arr /\
  sublist (snd (fst (activitiesLoop fuel i arr h))) arr /\
  (forall r, namedIn (snd (activitiesLoop fuel i arr h)) r = namedIn h r).
Proof.
  revert i arr h. induction fuel as [|fuel IH]; intros i arr h;
    cbn [activitiesLoop]; destruct (arr !! i) as [r|] eqn:Hr;
    try (cbn [fst snd]; repeat split; reflexivity).
  destruct (h !! r) as [a|] eqn:Ha; [|cbn [fst snd]; repeat split; reflexivity].
  pose proof (namedIn_insert h r a Ha) as Hnames.
  destruct (negb (JS.truthyOpt JS.truthyStr (name (defaultType a)))) eqn:Hnameless.
  - destruct (indexOf_found arr i r Hr) as (j & Hj & Hjr).
    rewrite Hj. cbn [splice1].
    destruct (IH (S i) (delete j arr) (<[r := defaultType a]> h))
      as (Hfilter & Hsub & Hsame).
    assert (Hr_nameless : namedIn h r = false).
    { unfold namedIn. rewrite Ha. rewrite defaultType_name in Hnameless.
      apply negb_true_iff in Hnameless. exact Hnameless. }
    split; [|split].
    + rewrite <- (filter_delete (namedIn h) arr j r Hjr Hr_nameless).
      rewrite <- (List.filter_ext _ _ Hnames (delete j arr)), <- Hfilter.
      apply List.filter_ext. intros r'. symmetry. apply Hnames.
    + etransitivity; [exact Hsub|]. apply sublist_delete.
    + intros r'. rewrite Hsame. apply Hnames.
  - destruct (IH (S i) arr (<[r := defaultType a]> h)) as (Hfilter & Hsub & Hsame).
    split; [|split].
    + rewrite <- (List.filter_ext _ _ Hnames arr), <- Hfilter.
      apply List.filter_ext. intros r'. symmetry. apply Hnames.
    + exact Hsub.
    + intros r'. rewrite Hsame. apply Hnames.
Qed.

(** A presence whose activities all have a name goes out whole: every
    activity is sent, in order, with the name and the URL it had; the type
    it had is kept, and one without a type is given 1 when it carries a
    non-empty URL and 0 otherwise.  A missing or empty status goes out as
    "online", a missing [afk] as false, and a missing [since] as the
    current time, which also replaces a [since] of 0. *)
Theorem named_presence_goes_out_whole (env : Env) (data : Presence)
    (c : Connector) (arr : list nat) :
  activities data = Some arr ->
  forallb (namedIn (heap c)) arr = true ->
  exists sent,
    log (presenceUpdate env data c) =
      [WsSend (OutPresenceUpdate
         {| o_status := Some (match p_status data with
                              | Some (String a rest) => String a rest
                              | _ => "online"
                              end);
            o_activities := sent;
            o_afk := Some (default false (afk data));
            o_since := Some (match since data with
                             | Some n => if n =? 0 then now env else n
                             | None => now env
                             end) |})] /\
    length sent = length arr /\
    (forall j r a, arr !! j = Some r -> heap c !! r = Some a ->
       sent !! j
       = Some (Some {| name := name a;
                       type := Some (match type a with
                                     | Some ty => ty
                                     | None =>
                                       match url a with
                                       | Some (String _ _) => 1
                                       | Some EmptyString | None => 0
                                       end
                                     end);
                       url := url a |})).
Proof.
  intros Harr Hnamed.
  assert (Hdefault : forall a, defaultType a
            = {| name := name a;
                 type := Some (match type a with
                               | Some ty => ty
                               | None =>
                                 match url a with
                                 | Some (String _ _) => 1
                                 | Some EmptyString | None => 0
                                 end
                               end);
                 url := url a |}).
  { intros [n [ty|] [[|u0 u]|]]; reflexivity. }
  setoid_rewrite <- Hdefault.
  destruct (presenceUpdate_all_named env data c arr Harr) as (sent & Hlog & Hrest).
  - intros r Hr. rewrite forallb_forall in Hnamed.
    apply list_elem_of_In in Hr. specialize (Hnamed r Hr).
    unfold namedIn in Hnamed. destruct (heap c !! r) as [a|]; [|discriminate].
    exists a. split; [reflexivity | exact Hnamed].
  - exists sent. split; [|exact Hrest]. rewrite Hlog.
    unfold JS.orElse, JS.truthyNum.
    destruct data as [[[|a0 rest]|] ? [[|]|] [n|]]; cbn [p_status afk since default];
      try destruct (n =? 0); reflexivity.
Qed.

(** An instance: a streaming activity without a type. *)
Lemma named_presence_goes_out_whole_witness :
  forallb
    (namedIn [ {| name := Some "Live"; type := None; url := Some "https://twitch.tv/x" |} ])
    [0%nat] = true /\
  exists sent,
    log (presenceUpdate Sample.env0
           {| p_status := Some ""; activities := Some [0%nat];
              afk := None; since := Some 0 |}
           (init 0 (Sample.opts true)
              [ {| name := Some "Live"; type := None;
                   url := Some "https://twitch.tv/x" |} ])) =
      [WsSend (OutPresenceUpdate
         {| o_status := Some "online"; o_activities := sent;
            o_afk := Some false; o_since := Some 100000 |})] /\
    sent !! 0%nat
    = Some (Some {| name := Some "Live"; type := Some 1;
                    url := Some "https://twitch.tv/x" |}).
Proof.
  split; [reflexivity|].
  destruct (named_presence_goes_out_whole Sample.env0
              {| p_status := Some ""; activities := Some [0%nat];
                 afk := None; since := Some 0 |}
              (init 0 (Sample.opts true)
                 [ {| name := Some "Live"; type := None;
                      url := Some "https://twitch.tv/x" |} ])
              [0%nat] eq_refl eq_refl) as (sent & Hlog & _ & Hsent).
  exists sent. split; [exact Hlog|].
  exact (Hsent 0%nat 0%nat _ eq_refl eq_refl).
Defined.

Lemma activitiesLoop_done (fuel i : nat) (arr : list nat) (h : list Activity) :
  arr !! i = None -> activitiesLoop fuel i arr h = (Completed, arr, h).
Proof. intros Hi. destruct fuel; cbn [activitiesLoop]; rewrite Hi; reflexivity. Qed.

Lemma indexOf_middle (pre rest : list nat) (r : nat) :
  NoDup (pre ++ r :: rest) -> indexOf (pre ++ r :: rest) r = Some (length pre).
Proof.
  induction pre as [|x pre IH]; intros Hnd; cbn [app indexOf length].
  - rewrite Nat.eqb_refl. reflexivity.
  - apply NoDup_cons in Hnd as [Hx Hnd].
    destruct (Nat.eqb_spec x r) as [->|Hne].
    + exfalso. apply Hx. apply list_elem_of_In, in_or_app. right. left. reflexivity.
    + rewrite (IH Hnd). reflexivity.
Qed.

Lemma delete_middle_ref (pre rest : list nat) (r : nat) :
  delete (length pre) (pre ++ r :: rest) = pre ++ rest.
Proof. induction pre as [|x pre IH]; cbn; [reflexivity|]. f_equal. exact IH. Qed.

Lemma isObject_insert (h : list Activity) (r : nat) (a : Activity) (l : list nat) :
  forallb (isObject h) l = true ->
  forallb (isObject (<[r := a]> h)) l = true.
Proof.
  intros Hall. rewrite forallb_forall in *. intros r' Hr'.
  specialize (Hall r' Hr'). unfold isObject in *.
  destruct (h !! r') as [a'|] eqn:Ha'; [|discriminate].
  destruct (decide (r' = r)) as [->|Hne].
  - rewrite list_lookup_insert_eq by (apply lookup_lt_Some in Ha'; exact Ha').
    reflexivity.
  - rewrite list_lookup_insert_ne by congruence. rewrite Ha'. reflexivity.
Qed.

Lemma noNamelessPair_two (h : list Activity) (r r' : nat) (rest : list nat) :
  noNamelessPair h (r :: r' :: rest)
  = (namedIn h r || namedIn h r') && noNamelessPair h (r' :: rest).
Proof. reflexivity. Qed.

Lemma noNamelessPair_ext (h h' : list Activity) (l : list nat) :
  (forall r, namedIn h' r = namedIn h r) ->
  noNamelessPair h' l = noNamelessPair h l.
Proof.
  intros Hsame. induction l as [|r l IH]; [reflexivity|].
  destruct l as [|r' rest]; [reflexivity|].
  rewrite !noNamelessPair_two, !Hsame, IH. reflexivity.
Qed.

Lemma noNamelessPair_tail (h : list Activity) (r : nat) (l : list nat) :
  noNamelessPair h (r :: l) = true -> noNamelessPair h l = true.
Proof.
  destruct l as [|r' rest]; [reflexivity|]. rewrite noNamelessPair_two.
  intros H. apply andb_true_iff in H as [_ H]. exact H.
Qed.

(** The loop from position [length pre] on, the array being [pre ++ suf]. *)
Lemma activitiesLoop_lone_nameless (fuel : nat) (pre suf : list nat)
    (h : list Activity) :
  NoDup (pre ++ suf) ->
  forallb (isObject h) suf = true ->
  noNamelessPair h suf = true ->
  (length suf <= fuel)%nat ->
  exists h',
    activitiesLoop fuel (length pre) (pre ++ suf) h
    = (Completed, pre ++ List.filter (namedIn h) suf, h').
Proof.
  revert pre suf h. induction fuel as [|fuel IH]; intros pre suf h Hnd Hobj Hpair Hfuel.
  - destruct suf as [|r rest]; [|cbn in Hfuel; lia].
    exists h. apply activitiesLoop_done. apply lookup_ge_None.
    rewrite length_app. cbn. lia.
  - destruct suf as [|r rest].
    + exists h. apply activitiesLoop_done. apply lookup_ge_None.
      rewrite length_app. cbn. lia.
    + cbn [activitiesLoop]. rewrite list_lookup_middle by reflexivity.
      cbn [forallb] in Hobj. apply andb_true_iff in Hobj as [Hr Hrest].
      unfold isObject in Hr. destruct (h !! r) as [a|] eqn:Ha; [|discriminate].
      pose proof (namedIn_insert h r a Ha) as Hnames.
      assert (Hnamed : namedIn h r = JS.truthyOpt JS.truthyStr (name a))
        by (unfold namedIn; rewrite Ha; reflexivity).
      rewrite (indexOf_middle pre rest r Hnd), defaultType_name.
      cbn [splice1]. rewrite delete_middle_ref.
      cbn [List.filter]. rewrite Hnamed.
      destruct (JS.truthyOpt JS.truthyStr (name a)) eqn:Hname; cbn [negb].
      * destruct (IH (pre ++ [r]) rest (<[r := defaultType a]> h)) as (h' & Hloop).
        -- rewrite <- app_assoc. exact Hnd.
        -- apply isObject_insert, Hrest.
        -- rewrite (noNamelessPair_ext h _ rest Hnames).
           exact (noNamelessPair_tail h r rest Hpair).
        -- cbn in Hfuel. lia.
        -- exists h'. rewrite length_app, Nat.add_1_r, <- app_assoc in Hloop.
           cbn [app] in Hloop. rewrite Hloop.
           rewrite (List.filter_ext _ _ Hnames rest), <- app_assoc. reflexivity.
      * destruct rest as [|r' rest'].
        -- exists (<[r := defaultType a]> h). apply activitiesLoop_done.
           apply lookup_ge_None. rewrite length_app. cbn. lia.
        -- rewrite noNamelessPair_two, Hnamed in Hpair.
           cbn [orb] in Hpair. apply andb_true_iff in Hpair as [Hr' Hpair].
           cbn [forallb] in Hrest. apply andb_true_iff in Hrest as [_ Hrest'].
           destruct (IH (pre ++ [r']) rest' (<[r := defaultType a]> h))
             as (h' & Hloop).
           ++ rewrite <- app_assoc. cbn [app].
              eapply sublist_NoDup; [exact Hnd|].
              apply sublist_app; [reflexivity|]. apply sublist_cons. reflexivity.
           ++ apply isObject_insert, Hrest'.
           ++ rewrite (noNamelessPair_ext h _ rest' Hnames).
              exact (noNamelessPair_tail h r' rest' Hpair).
           ++ cbn in Hfuel. lia.
           ++ exists h'. rewrite length_app, Nat.add_1_r, <- app_assoc in Hloop.
              cbn [app] in Hloop. rewrite Hloop.
              cbn [List.filter]. rewrite Hr'.
              rewrite (List.filter_ext _ _ Hnames rest'), <- app_assoc. reflexivity.
Qed.

(** What the loop does get right.  When the activities are distinct
    objects and no two in a row are without a name, the loop runs to its
    end and the resulting array is the given one without its nameless
    entries, exactly. *)
Theorem lone_nameless_activities_are_dropped (arr : list nat) (h : list Activity) :
  NoDup arr ->
  forallb (isObject h) arr = true ->
  noNamelessPair h arr = true ->
  exists h',
    activitiesLoop (length arr) 0 arr h
    = (Completed, List.filter (namedIn h) arr, h').
Proof.
  intros Hnd Hobj Hpair.
  exact (activitiesLoop_lone_nameless (length arr) [] arr h Hnd Hobj Hpair
           (Nat.le_refl _)).
Qed.

(** An instance: a nameless activity between two named ones. *)
Lemma lone_nameless_activities_are_dropped_witness :
  NoDup [0%nat; 1%nat; 2%nat] /\
  forallb
    (isObject [ {| name := Some "a"; type := Some 0; url := None |};
                {| name := None; type := Some 0; url := None |};
                {| name := Some "b"; type := Some 0; url := None |} ])
    [0%nat; 1%nat; 2%nat] = true /\
  noNamelessPair
    [ {| name := Some "a"; type := Some 0; url := None |};
      {| name := None; type := Some 0; url := None |};
      {| name := Some "b"; type := Some 0; url := None |} ]
    [0%nat; 1%nat; 2%nat] = true /\
  exists h',
    activitiesLoop 3 0 [0%nat; 1%nat; 2%nat]
      [ {| name := Some "a"; type := Some 0; url := None |};
        {| name := None; type := Some 0; url := None |};
        {| name := Some "b"; type := Some 0; url := None |} ]
    = (Completed, [0%nat; 2%nat], h').
Proof.
  assert (Hnd : NoDup [0%nat; 1%nat; 2%nat])
    by (apply (bool_decide_unpack _); reflexivity).
  split; [exact Hnd|]. split; [reflexivity|]. split; [reflexivity|].
  exact (lone_nameless_activities_are_dropped [0%nat; 1%nat; 2%nat]
           [ {| name := Some "a"; type := Some 0; url := None |};
             {| name := None; type := Some 0; url := None |};
             {| name := Some "b"; type := Some 0; url := None |} ]
           Hnd eq_refl eq_refl).
Defined.

(** ** How the connector becomes ready *)

Lemma route_not_ready (env : Env) (m : Message) (c : Connector) :
  (op m =? OP.DISPATCH) && isSessionEvent m = false ->
  isReadyStatus (status c) = false ->
  isReadyStatus (status (st (route env m c))) = false.
Proof.
  route_cases env m; cbn [andb].
  - intros Hev Hnot. unfold handleDispatch. rewrite Hev. destruct c; exact Hnot.
  - intros _ Hnot. rewrite heartbeat_eq. destruct c; exact Hnot.
  - intros _ Hnot. rewrite onReconnect_eq.
    destruct c, (opt_reconnect _); exact Hnot.
  - intros _ Hnot. rewrite onInvalidSession_eq.
    destruct (resumable m c), c; [reflexivity | exact Hnot].
  - intros _ Hnot. unfold onHello, readD.
    rewrite (bind_completed _ _ c c c []) by reflexivity.
    rewrite (bind_completed _ _ c c tt [ClientDebug (DbgHello (id c))])
      by reflexivity.
    rewrite (bind_completed _ _ c _ tt _ (heartbeat_eq env c)).
    destruct (d m), c; exact Hnot.
  - intros _ Hnot. destruct c; exact Hnot.
  - intros _ Hnot. destruct c; exact Hnot.
Qed.

(** Nothing but the receipt of a "READY" or a "RESUMED" dispatch makes the
    connector ready: a connector that is not ready is not ready after any
    other event, be it a message, a close, a tick or a call. *)
Theorem ready_only_by_session_dispatch
    (resolve : Z -> Z) (env : Env) (e : Event) (c : Connector) :
  isReadyStatus (status c) = false ->
  sessionDispatch e = false ->
  isReadyStatus (status (st (step resolve env e c))) = false.
Proof.
  intros Hnot Hev.
  destruct e as [|m|code reason|h|n| | |force|data|data|data];
    cbn [step sessionDispatch] in *.
  - destruct c; reflexivity.
  - rewrite messageAction_eq. cbn [st]. apply route_not_ready; [exact Hev|].
    unfold tracked. destruct (gap m c), c; [reflexivity | exact Hnot].
  - destruct (handleWsClose_summary code reason c) as (_ & -> & _). reflexivity.
  - destruct (bool_decide (h ∈ timers c)); [|exact Hnot].
    destruct (ackOverdue env c) eqn:Hover.
    + rewrite (heartbeatTick_overdue env c Hover).
      destruct c, (opt_reconnect _); exact Hnot.
    + rewrite (heartbeatTick_alive env c Hover), heartbeat_eq.
      destruct c; exact Hnot.
  - destruct (suspended c !! n) as [r|]; [|exact Hnot].
    rewrite (bind_completed _ _ c (set_suspended (delete n (suspended c)) c) tt [])
      by reflexivity.
    destruct c as [? ? [?|] ? ? ? ? ? ? ? ? ? ? ? ? ? ?], r; exact Hnot.
  - destruct c; exact Hnot.
  - destruct c; exact Hnot.
  - destruct (identify_frame resolve env force c) as (-> & _).
    destruct (_ && _); reflexivity.
  - destruct (presenceUpdate_frame env data c) as (-> & _). exact Hnot.
  - destruct data, c; exact Hnot.
  - exact Hnot.
Qed.

(** An instance: an identify does not make a greeted connector ready. *)
Lemma ready_only_by_session_dispatch_witness :
  isReadyStatus (status (Sample.greeted true)) = false /\
  sessionDispatch (CallIdentify None) = false /\
  isReadyStatus
    (status (st (step Sample.resolve Sample.env0 (CallIdentify None)
                   (Sample.greeted true)))) = false.
Proof.
  split; [reflexivity|]. split; [reflexivity|].
  exact (ready_only_by_session_dispatch Sample.resolve Sample.env0
           (CallIdentify None) (Sample.greeted true) eq_refl eq_refl).
Defined.

(** ** The pending-resume flag *)

Lemma tracked_reconnecting (m : Message) (c : Connector) :
  reconnecting (tracked m c) = reconnecting c.
Proof. unfold tracked. destruct (gap m c), c; reflexivity. Qed.

(** The opcode switch sets the flag for a reconnect request with automatic
    reconnection on, and leaves it alone otherwise. *)
Lemma route_reconnecting (env : Env) (m : Message) (c : Connector) :
  reconnecting (st (route env m c)) =
    if (op m =? OP.RECONNECT) && opt_reconnect (options c)
    then true else reconnecting c.
Proof.
  route_cases env m; cbn [andb].
  - unfold handleDispatch, isSessionEvent, readD.
    destruct m as [o [v|] ss [n|]]; cbn [t d JS.truthyOpt];
      try destruct (String.eqb n "READY"); try destruct (String.eqb n "RESUMED");
      destruct c; reflexivity.
  - unfold heartbeat. destruct (wsStatus env =? 1), c; reflexivity.
  - rewrite onReconnect_eq. destruct c, (opt_reconnect _); reflexivity.
  - rewrite onInvalidSession_eq. destruct (resumable m c), c; reflexivity.
  - unfold onHello, heartbeat, readD.
    destruct (d m), (wsStatus env =? 1), c; reflexivity.
  - destruct c; reflexivity.
  - destruct c; reflexivity.
Qed.

(** No close, whatever its code, touches the flag. *)
Lemma handleWsClose_reconnecting (code : Z) (reason : string) (c : Connector) :
  reconnecting (st (handleWsClose code reason c)) = reconnecting c.
Proof.
  destruct (close_code_cases code) as [Hcode|Hother].
  - destruct c as [? ? [?|] ? ? ? ? ? ? ? ? [|] [|] ? ? ? ?];
      repeat (destruct Hcode as [->|Hcode]); try subst code; reflexivity.
  - rewrite (close_other_eq code reason c Hother). destruct c; reflexivity.
Qed.

(** An event that does not call [_reconnect(true)] does not set the flag. *)
Lemma step_reconnecting (resolve : Z -> Z) (env : Env) (e : Event) (c : Connector) :
  reconnecting c = false ->
  startsReconnect env e c = false ->
  reconnecting (st (step resolve env e c)) = false.
Proof.
  intros Hc Hcall. destruct e as [|m|code reason|h|n| | |force|data|data|data];
    cbn [step startsReconnect] in *.
  - destruct c; reflexivity.
  - rewrite messageAction_eq. cbn [st].
    rewrite route_reconnecting, tracked_reconnecting.
    destruct (tracked_frame m c) as (_ & -> & _).
    rewrite Hcall. exact Hc.
  - rewrite handleWsClose_reconnecting. exact Hc.
  - destruct (bool_decide (h ∈ timers c)); [|exact Hc].
    destruct (ackOverdue env c) eqn:Hover.
    + rewrite (heartbeatTick_overdue env c Hover).
      cbn [andb] in Hcall. rewrite Hcall. destruct c; exact Hc.
    + rewrite (heartbeatTick_alive env c Hover), heartbeat_eq.
      destruct c; exact Hc.
  - destruct (suspended c !! n) as [r|]; [|exact Hc].
    rewrite (bind_completed _ _ c (set_suspended (delete n (suspended c)) c) tt [])
      by reflexivity.
    cbn [st]. destruct r, c as [? ? [?|] ? ? ? ? ? ? ? ? ? ? ? ? ? ?]; exact Hc.
  - destruct c; exact Hc.
  - destruct c; exact Hc.
  - rewrite (identify_preserves_any reconnecting resolve env force); [exact Hc|..].
    + intros ? []; reflexivity.
    + intros ? []; reflexivity.
    + intros ? []; reflexivity.
  - rewrite (presenceUpdate_preserves_any reconnecting env data); [exact Hc|].
    intros ? []; reflexivity.
  - destruct data; exact Hc.
  - exact Hc.
Qed.

Lemma run_reconnecting (resolve : Z -> Z) (evs : list (Env * Event)) (c : Connector) :
  reconnecting c = false ->
  noReconnect resolve evs c = true ->
  reconnecting (fst (run resolve evs c)) = false.
Proof.
  revert c. induction evs as [|[env e] evs IH]; intros c Hc Hquiet; [exact Hc|].
  cbn [noReconnect] in Hquiet. apply andb_true_iff in Hquiet as [He Hrest].
  apply negb_true_iff in He.
  cbn [run]. destruct (run resolve evs (st (step resolve env e c))) eqn:Hrun.
  cbn [fst]. change c0 with (fst (c0, l)). rewrite <- Hrun.
  apply IH; [|exact Hrest]. apply step_reconnecting; assumption.
Qed.

(** The listener of the transport's opening sets the status to connecting
    and clears the pending-resume flag.  From then on, along every run in
    which this connector calls [_reconnect(true)] no more (no reconnect
    request and no overdue heartbeat tick with automatic reconnection on),
    the flag stays cleared, and a close with code 4000 is not taken for
    the one the connector asked for: it is reported as an error, the
    stored heartbeat timer is cancelled, and the connector connects again
    and reports the close as not graceful.  (The flag belongs to the
    module; the run is that of the one connector that uses it.) *)
Theorem open_clears_pending_resume
    (resolve : Z -> Z) (evs : list (Env * Event)) (c : Connector)
    (reason : string) :
  noReconnect resolve evs (st (handleWsOpen c)) = true ->
  status (st (handleWsOpen c)) = connecting /\
  reconnecting (st (handleWsOpen c)) = false /\
  reconnecting (fst (run resolve evs (st (handleWsOpen c)))) = false /\
  log (handleWsClose 4000 reason (fst (run resolve evs (st (handleWsOpen c))))) =
    [EmitStateChange disconnected;
     ClientError "Error code 4000 received. Attempting to resume"]
    ++ cancelled (fst (run resolve evs (st (handleWsOpen c))))
    ++ [ClientDebug (DbgConnecting (id (fst (run resolve evs (st (handleWsOpen c))))));
        WsConnect; EmitDisconnect 4000 reason false].
Proof.
  intros Hquiet.
  assert (Hopen : reconnecting (st (handleWsOpen c)) = false)
    by (destruct c; reflexivity).
  split; [destruct c; reflexivity|]. split; [exact Hopen|].
  pose proof (run_reconnecting resolve evs _ Hopen Hquiet) as Hflag.
  split; [exact Hflag|].
  rewrite close_4000_eq, Hflag. reflexivity.
Qed.

(** An instance: a connector that was reconnecting opens, is greeted,
    identifies and is made ready; then the transport closes with 4000. *)
Lemma open_clears_pending_resume_witness :
  reconnecting (set_reconnecting true (Sample.established true false)) = true /\
  log (handleWsClose 4000 "gone"
         (fst (run Sample.resolve
                 [(Sample.env0, EvMessage Sample.helloMsg);
                  (Sample.env0, CallIdentify None);
                  (Sample.env0, EvMessage Sample.readyMsg)]
                 (st (handleWsOpen
                        (set_reconnecting true (Sample.established true false))))))) =
    [EmitStateChange disconnected;
     ClientError "Error code 4000 received. Attempting to resume";
     ClearInterval 1;
     ClientDebug (DbgConnecting 0); WsConnect;
     EmitDisconnect 4000 "gone" false].
Proof.
  split; [reflexivity|].
  destruct (open_clears_pending_resume Sample.resolve
              [(Sample.env0, EvMessage Sample.helloMsg);
               (Sample.env0, CallIdentify None);
               (Sample.env0, EvMessage Sample.readyMsg)]
              (set_reconnecting true (Sample.established true false))
              "gone" eq_refl) as (_ & _ & _ & H).
  exact H.
Defined.
